(** * hydra-maester: the OAuth2Client reconciler

    A shallow embedding of [controllers/oauth2client_controller.go] and of
    [api/v1alpha1/oauth2client_types.go].  The reconciler talks to two
    outside parties, the Kubernetes API server (through the embedded
    [client.Client]) and the Hydra registry (through [HTTPClient]); both are
    modelled as an explicit [World] that is threaded through every call,
    together with an [Env] that fixes how the outside answers. *)

From Stdlib Require Import ZArith Ascii String List.
From stdpp Require Import base option gmap strings list.

Local Open Scope Z_scope.
Local Open Scope string_scope.

(** ** Go's [path] package: [Clean] and [Join] *)

Module path.

Definition slash : ascii := ascii_of_nat 47.

(** The path elements between slashes, empty ones included. *)
Fixpoint split (s : string) : list string :=
  match s with
  | EmptyString => [EmptyString]
  | String c s' =>
      if Ascii.eqb c slash then EmptyString :: split s'
      else match split s' with
           | [] => [String c EmptyString]
           | e :: es => String c e :: es
           end
  end.

Definition rooted (s : string) : bool :=
  match s with
  | String c _ => Ascii.eqb c slash
  | EmptyString => false
  end.

(** One element of the path against the elements kept so far (innermost
    first): empty and [.] elements vanish, [..] removes the element before
    it, is dropped at the root, and is kept in front of a relative path. *)
Definition step (is_rooted : bool) (kept : list string) (e : string) : list string :=
  if String.eqb e "" then kept
  else if String.eqb e "." then kept
  else if String.eqb e ".." then
    match kept with
    | k :: kept' => if String.eqb k ".." then e :: kept else kept'
    | [] => if is_rooted then [] else [e]
    end
  else e :: kept.

Fixpoint concat_with (sep : string) (l : list string) : string :=
  match l with
  | [] => ""
  | [e] => e
  | e :: l' => e +:+ sep +:+ concat_with sep l'
  end.

Definition Clean (p : string) : string :=
  if String.eqb p "" then "."
  else
    let is_rooted := rooted p in
    let kept := rev (fold_left (step is_rooted) (split p) []) in
    if is_rooted then "/" +:+ concat_with "/" kept
    else match kept with
         | [] => "."
         | _ => concat_with "/" kept
         end.

(** [Join]: leading empty elements are skipped, the rest is joined with
    slashes and cleaned; all elements empty gives the empty string. *)
Fixpoint Join (elem : list string) : string :=
  match elem with
  | [] => ""
  | e :: rest =>
      if String.eqb e "" then Join rest
      else Clean (concat_with "/" elem)
  end.

End path.

(** ** Go's [net/url]: the fields of [url.URL] the reconciler uses *)

Module url.

Record URL := mkURL { Scheme : string; Host : string; Path : string }.

Definition set_Path (u : URL) (p : string) : URL :=
  {| Scheme := Scheme u; Host := Host u; Path := p |}.

(** The two escaping modes [URL.String] uses on these fields. *)
Inductive encoding := encodePath | encodeHost.

Definition isAlnum (n : N) : bool :=
  (((48 <=? n) && (n <=? 57)) || ((65 <=? n) && (n <=? 90))
   || ((97 <=? n) && (n <=? 122)))%N.

(** [shouldEscape]: letters and digits never; in a host the sub-delimiters,
    the colon, the brackets, the angle brackets and the double quote stay;
    the marks (hyphen, underscore, dot, tilde) stay; of the reserved
    characters (dollar, ampersand, plus, comma, slash, colon, semicolon,
    equals, question mark, at) a path escapes only the question mark and a
    host all that are left; every other byte is escaped. *)
Definition shouldEscape (c : ascii) (mode : encoding) : bool :=
  let n := N_of_ascii c in
  if isAlnum n then false
  else if match mode with
          | encodeHost =>
              existsb (N.eqb n)
                [33; 36; 38; 39; 40; 41; 42; 43; 44; 59; 61; 58; 91; 93; 60; 62; 34]%N
          | encodePath => false
          end then false
  else if existsb (N.eqb n) [45; 95; 46; 126]%N then false
  else if existsb (N.eqb n) [36; 38; 43; 44; 47; 58; 59; 61; 63; 64]%N then
    match mode with
    | encodePath => N.eqb n 63
    | encodeHost => true
    end
  else true.

Definition upperhex (n : N) : ascii :=
  ascii_of_N (if (n <? 10)%N then 48 + n else 55 + n)%N.

(** [escape]: a byte to escape becomes [%] and its two upper-case hex
    digits. *)
Fixpoint escape (s : string) (mode : encoding) : string :=
  match s with
  | EmptyString => EmptyString
  | String c s' =>
      if shouldEscape c mode then
        String (ascii_of_nat 37)
          (String (upperhex (N_of_ascii c / 16)%N)
             (String (upperhex (N_of_ascii c mod 16)%N) (escape s' mode)))
      else String c (escape s' mode)
  end.

(** [URL.EscapedPath] with no [RawPath] set: the reconciler assigns [Path]
    only. *)
Definition EscapedPath (u : URL) : string :=
  if String.eqb (Path u) "*" then "*" else escape (Path u) encodePath.

(** The first colon of [s] comes before any slash. *)
Fixpoint colonInFirstSegment (s : string) : bool :=
  match s with
  | EmptyString => false
  | String c s' =>
      if Ascii.eqb c (ascii_of_nat 58) then true
      else if Ascii.eqb c path.slash then false
      else colonInFirstSegment s'
  end.

(** [URL.String] for a URL with no opaque part, user, query or fragment:
    scheme, [//] and the escaped host, a slash in front of a relative path
    after a host, [./] in front of a path that would read as a scheme, and
    the escaped path. *)
Definition String (u : URL) : string :=
  let path := EscapedPath u in
  let front :=
    (if String.eqb (Scheme u) "" then "" else Scheme u +:+ ":")
    +:+ (if negb (String.eqb (Scheme u) "") || negb (String.eqb (Host u) "")
         then (if negb (String.eqb (Host u) "") || negb (String.eqb (Path u) "")
               then "//" else "") +:+ escape (Host u) encodeHost
         else "")
    +:+ (if negb (String.eqb path "") && negb (path.rooted path)
            && negb (String.eqb (Host u) "")
         then "/" else "") in
  front
  +:+ (if String.eqb front "" && colonInFirstSegment path then "./" else "")
  +:+ path.

End url.

(** ** api/v1alpha1: the resource and its wire representation *)

Record OAuth2ClientSpec := mkSpec {
  GrantTypes : list string;
  ResponseTypes : list string;
  Scope : string
}.

(** Both fields are [*string] in the source: [None] is the nil pointer. *)
Record OAuth2ClientStatus := mkStatus {
  Secret : option string;
  ClientID : option string
}.

(** [metav1.ObjectMeta] is cut down to the two fields the reconciler reads. *)
Record OAuth2Client := mkClient {
  Name : string;
  Namespace : string;
  Spec : OAuth2ClientSpec;
  Status : OAuth2ClientStatus
}.

Module json.

(** Modelled from the spec: the declaration of [OAuth2ClientJSON] is not among
    the sources.  Its fields are those the controller and its tests read and
    write ([ClientID], [Name], [Secret], [GrantTypes], [ResponseTypes],
    [Scope]); the spec lists them as the registry's client representation
    [client_id], [client_name], [client_secret], [grant_types],
    [response_types], [scope].  [ClientID] and [Secret] are dereferenced in
    the controller, hence pointers. *)
Record OAuth2ClientJSON := mkJSON {
  ClientID : option string;
  Name : string;
  Secret : option string;
  GrantTypes : list string;
  ResponseTypes : list string;
  Scope : string
}.

End json.
Abbreviation OAuth2ClientJSON := json.OAuth2ClientJSON.

(** [ToOAuth2ClientJSON]: the fields not named in the composite literal keep
    their zero value, the nil pointer. *)
Definition ToOAuth2ClientJSON (c : OAuth2Client) : OAuth2ClientJSON :=
  {| json.ClientID := None;
     json.Name := Name c;
     json.Secret := None;
     json.GrantTypes := GrantTypes (Spec c);
     json.ResponseTypes := ResponseTypes (Spec c);
     json.Scope := Scope (Spec c) |}.

(** The [apiv1.Secret] built by the reconciler: object name, namespace and
    the [Data] map from keys to bytes. *)
Record SecretObj := mkSecret {
  SecretName : string;
  SecretNamespace : string;
  Data : gmap string string
}.

(** [types.NamespacedName]: namespace first, then name. *)
Definition NamespacedName : Type := string * string.

(** ** Errors

    A Go [error] is kept as its origin and its message.  Only API errors can
    satisfy [apierrs.IsNotFound]. *)
Inductive error :=
| APINotFound (msg : string)      (* a StatusError with reason NotFound *)
| APIError (msg : string)         (* any other error of the API server *)
| TransportError (msg : string)   (* [HTTPClient.Do] failed *)
| DecodeError (msg : string)      (* [json.Decoder.Decode] failed *)
| Errorf (msg : string).          (* built with [fmt.Errorf] *)

Definition IsNotFound (e : error) : bool :=
  match e with APINotFound _ => true | _ => false end.

Definition Error (e : error) : string :=
  match e with
  | APINotFound m | APIError m | TransportError m | DecodeError m | Errorf m => m
  end.

(** ** Go's [net/http]: requests and responses *)

Module http.

Definition MethodGet := "GET".
Definition MethodPost := "POST".
Definition MethodDelete := "DELETE".

Definition StatusOK := 200.
Definition StatusCreated := 201.
Definition StatusNotFound := 404.
Definition StatusConflict := 409.

(** The buffer handed to [NewRequest]: the bytes [json.Encoder.Encode]
    wrote for a client representation. *)
Inductive buffer := Encoded (c : OAuth2ClientJSON).

(** [URL] is the rendering of the URL the request was built from: the
    request owns a parsed copy, it does not alias the reconciler's. *)
Record Request := mkRequest {
  Method : string;
  URL : string;
  Header : gmap string string;
  Body : option buffer
}.

Definition Header_Set (k v : string) (r : Request) : Request :=
  {| Method := Method r; URL := URL r;
     Header := <[k := v]> (Header r); Body := Body r |}.

(** What [json.NewDecoder(resp.Body).Decode(&jsonClient)] finds in a
    response body: bytes it rejects (an empty body gives [io.EOF], text
    that is not JSON a syntax error), the JSON [null], which leaves the
    pointer nil, or a JSON object with the fields of the client
    representation. *)
Inductive body :=
| Undecodable (msg : string)
| Null
| Object (c : OAuth2ClientJSON).

Record Response := mkResponse {
  StatusCode : Z;
  Status : string;       (* the status text, such as [404 Not Found] *)
  RespBody : body
}.

(** Token characters of a method name (RFC 7230). *)
Definition isTokenChar (c : ascii) : bool :=
  let n := N_of_ascii c in
  ((48 <=? n) && (n <=? 57))%N || ((65 <=? n) && (n <=? 90))%N
  || ((97 <=? n) && (n <=? 122))%N
  || existsb (N.eqb n) [33; 35; 36; 37; 38; 39; 42; 43; 45; 46; 94; 95; 96; 124; 126]%N.

Definition validMethod (m : string) : bool :=
  negb (String.eqb m "") && forallb isTokenChar (list_ascii_of_string m).

(** The [%q] verb for text without characters to escape. *)
Definition quoted (s : string) : string :=
  let q := String (ascii_of_nat 34) EmptyString in q +:+ s +:+ q.

(** [http.NewRequest]: an empty method means GET, an invalid one is an
    error.  The URL text always comes from [url.String] here and is taken
    to parse back to itself. *)
Definition NewRequest (method urlStr : string) (buf : option buffer)
  : error + Request :=
  let method := if String.eqb method "" then MethodGet else method in
  if validMethod method
  then inr {| Method := method; URL := urlStr; Header := ∅; Body := buf |}
  else inl (Errorf ("net/http: invalid method " +:+ quoted method)).

End http.

(** [json.Decoder.Decode] into a [**OAuth2ClientJSON]. *)
Definition Decode (b : http.body) : option OAuth2ClientJSON * option error :=
  match b with
  | http.Undecodable msg => (None, Some (DecodeError msg))
  | http.Null => (None, None)
  | http.Object c => (Some c, None)
  end.

(** ** The world outside the reconciler *)

(** Calls that leave the process, in the order they are made. *)
Inductive Call :=
| CallGet (key : NamespacedName)          (* r.Get *)
| CallDo (req : http.Request)             (* r.HTTPClient.Do *)
| CallCreate (s : SecretObj)              (* r.Create *)
| CallStatusUpdate (c : OAuth2Client).    (* r.Status().Update *)

(** [HydraURL] is the [*url.URL] of the reconciler: one shared object for all
    invocations.  [objects] and [secrets] are what the API server stores;
    a stored resource is its spec and status, its name being the key. *)
Record World := mkWorld {
  HydraURL : url.URL;
  objects : gmap NamespacedName (OAuth2ClientSpec * OAuth2ClientStatus);
  secrets : gmap NamespacedName SecretObj;
  calls : list Call
}.

(** How the outside answers.  [apiFault] lets the API server refuse a call
    for a reason of its own (a conflict, an outage); [transport] is the
    registry as seen through [HTTPClient.Do].  Both see the calls made so
    far, so an answer may depend on everything that happened before. *)
Record Env := mkEnv {
  apiFault : list Call -> Call -> option error;
  transport : list Call -> http.Request -> error + http.Response
}.

(** ** Computations: a state monad over [World] in which a Go panic stops
    everything *)

Inductive outcome (A : Type) :=
| Done (a : A)
| Panic (msg : string).
Arguments Done {A} a.
Arguments Panic {A} msg.

Definition M (A : Type) : Type := World -> outcome A * World.

#[global] Instance M_ret : MRet M := fun A a w => (Done a, w).

#[global] Instance M_bind : MBind M := fun A B f m w =>
  match m w with
  | (Done a, w') => f a w'
  | (Panic msg, w') => (Panic msg, w')
  end.

Definition panic {A : Type} (msg : string) : M A := fun w => (Panic msg, w).

Definition log (c : Call) (w : World) : World :=
  {| HydraURL := HydraURL w; objects := objects w; secrets := secrets w;
     calls := calls w ++ [c] |}.

Definition set_HydraURL (u : url.URL) (w : World) : World :=
  {| HydraURL := u; objects := objects w; secrets := secrets w;
     calls := calls w |}.

Definition set_objects (o : gmap NamespacedName (OAuth2ClientSpec * OAuth2ClientStatus))
  (w : World) : World :=
  {| HydraURL := HydraURL w; objects := o; secrets := secrets w;
     calls := calls w |}.

Definition set_secrets (s : gmap NamespacedName SecretObj) (w : World) : World :=
  {| HydraURL := HydraURL w; objects := objects w; secrets := s;
     calls := calls w |}.

(** Reading and writing through the [r.HydraURL] pointer. *)
Definition read_HydraURL : M url.URL := fun w => (Done (HydraURL w), w).

Definition modify_HydraURL (f : url.URL -> url.URL) : M unit :=
  fun w => (Done tt, set_HydraURL (f (HydraURL w)) w).

(** [ctrl.Result]; the reconciler only ever returns its zero value. *)
Record Result := mkResult { Requeue : bool; RequeueAfter : Z }.
Definition Result_zero : Result := {| Requeue := false; RequeueAfter := 0 |}.

Section Reconciler.

Context (env : Env).

(** *** The embedded [client.Client] *)

(** [r.Get(ctx, key, &client)]: the stored object under the name asked for,
    a NotFound error when there is none. *)
Definition Get (key : NamespacedName) : M (error + OAuth2Client) := fun w =>
  let res :=
    match apiFault env (calls w) (CallGet key) with
    | Some e => inl e
    | None =>
        match objects w !! key with
        | None => inl (APINotFound ("OAuth2Client " +:+ key.2 +:+ " not found"))
        | Some (sp, st) =>
            inr {| Name := key.2; Namespace := key.1; Spec := sp; Status := st |}
        end
    end in
  (Done res, log (CallGet key) w).

(** [r.Create(ctx, &clientSecret)]: a name already taken is refused. *)
Definition Create (s : SecretObj) : M (option error) := fun w =>
  let key : NamespacedName := (SecretNamespace s, SecretName s) in
  let w' := log (CallCreate s) w in
  match apiFault env (calls w) (CallCreate s) with
  | Some e => (Done (Some e), w')
  | None =>
      match secrets w !! key with
      | Some _ => (Done (Some (APIError ("secrets " +:+ SecretName s +:+ " already exists"))), w')
      | None => (Done None, set_secrets (<[key := s]> (secrets w)) w')
      end
  end.

(** [r.Status().Update(ctx, client)]: only the status of the stored object
    is replaced. *)
Definition StatusUpdate (c : OAuth2Client) : M (option error) := fun w =>
  let key : NamespacedName := (Namespace c, Name c) in
  let w' := log (CallStatusUpdate c) w in
  match apiFault env (calls w) (CallStatusUpdate c) with
  | Some e => (Done (Some e), w')
  | None =>
      match objects w !! key with
      | None => (Done (Some (APINotFound ("OAuth2Client " +:+ Name c +:+ " not found"))), w')
      | Some (sp, _) => (Done None, set_objects (<[key := (sp, Status c)]> (objects w)) w')
      end
  end.

(** [r.HTTPClient.Do(req)] *)
Definition HTTPClient_Do (req : http.Request) : M (error + http.Response) :=
  fun w => (Done (transport env (calls w) req), log (CallDo req) w).

(** *** controllers/oauth2client_controller.go *)

(** [do]: the decoded value is what the call leaves in [jsonClient]; the
    response comes back together with the decoder's error. *)
Definition do (req : http.Request)
  : M (option OAuth2ClientJSON * option http.Response * option error) :=
  r ← HTTPClient_Do req;
  match r with
  | inl err => mret (None, None, Some err)
  | inr resp =>
      let '(v, err) := Decode (http.RespBody resp) in
      mret (v, Some resp, err)
  end.

(** [newRequest]: [body] is [None] for the nil interface.  Encoding a client
    representation (strings and slices of strings) cannot fail, so that
    early return is not taken.  The joined path is assigned to the URL the
    reconciler points to before the request is built from it. *)
Definition newRequest (method relativePath : string) (body : option OAuth2ClientJSON)
  : M (option http.Request * option error) :=
  let buf := match body with
             | Some c => Some (http.Encoded c)
             | None => None
             end in
  _ ← modify_HydraURL
        (fun u => url.set_Path u (path.Join [url.Path u; relativePath]));
  u ← read_HydraURL;
  match http.NewRequest method (url.String u) buf with
  | inl err => mret (None, Some err)
  | inr req =>
      let req := match body with
                 | Some _ => http.Header_Set "Content-Type" "application/json" req
                 | None => req
                 end in
      let req := http.Header_Set "Accept" "application/json" req in
      mret (Some req, None)
  end.

(** [getOAuth2Client]: Lookup.  The result is Go's triple of record, found
    and error. *)
Definition getOAuth2Client (id : string)
  : M (option OAuth2ClientJSON * bool * option error) :=
  '(oreq, err) ← newRequest http.MethodGet id None;
  match oreq, err with
  | Some req, None =>
      '(jsonClient, oresp, err) ← do req;
      match oresp, err with
      | Some resp, None =>
          if Z.eqb (http.StatusCode resp) http.StatusOK then
            mret (jsonClient, true, None)
          else if Z.eqb (http.StatusCode resp) http.StatusNotFound then
            mret (None, false, None)
          else
            mret (None, false,
                  Some (Errorf (http.Method req +:+ " " +:+ http.URL req +:+
                                " http request returned unexpected status code " +:+
                                http.Status resp)))
      | _, Some err => mret (None, false, Some err)
      | None, None => panic "nil pointer dereference"
      end
  | _, Some err => mret (None, false, Some err)
  | None, None => panic "nil pointer dereference"
  end.

(** [postOAuth2Client]: Create. *)
Definition postOAuth2Client (c : OAuth2ClientJSON)
  : M (option OAuth2ClientJSON * option error) :=
  '(oreq, err) ← newRequest http.MethodPost "" (Some c);
  match oreq, err with
  | Some req, None =>
      '(jsonClient, oresp, err) ← do req;
      match oresp, err with
      | Some resp, None =>
          if Z.eqb (http.StatusCode resp) http.StatusCreated then
            mret (jsonClient, None)
          else if Z.eqb (http.StatusCode resp) http.StatusConflict then
            mret (None,
                  Some (Errorf (" " +:+ http.Method req +:+ " " +:+ http.URL req +:+
                                " http request failed: requested ID already exists")))
          else
            mret (None,
                  Some (Errorf (http.Method req +:+ " " +:+ http.URL req +:+
                                " http request returned unexpected status code: " +:+
                                http.Status resp)))
      | _, Some err => mret (None, Some err)
      | None, None => panic "nil pointer dereference"
      end
  | _, Some err => mret (None, Some err)
  | None, None => panic "nil pointer dereference"
  end.

(** [registerOAuth2Client]: [*created.Secret] panics when the registry sent
    [null] or a record without secret.  [client] is the copy local to the
    invocation; its status reaches the store with the last call only. *)
Definition registerOAuth2Client (client : OAuth2Client) : M (option error) :=
  '(created, err) ← postOAuth2Client (ToOAuth2ClientJSON client);
  match err with
  | Some err => mret (Some err)
  | None =>
      match created ≫= json.Secret with
      | None => panic "nil pointer dereference"
      | Some secret =>
          let clientSecret :=
            {| SecretName := Name client;
               SecretNamespace := Namespace client;
               Data := {[ "client_secret" := secret ]} |} in
          err ← Create clientSecret;
          match err with
          | Some err => mret (Some err)
          | None =>
              let client :=
                {| Name := Name client; Namespace := Namespace client;
                   Spec := Spec client;
                   Status := {| Secret := Some (SecretName clientSecret);
                                ClientID := created ≫= json.ClientID |} |} in
              StatusUpdate client
          end
      end
  end.

(** [Reconcile]: [registered] starts false and is set by the Lookup, which
    is made only when the status carries an identifier. *)
Definition Reconcile (req : NamespacedName) : M (Result * option error) :=
  r ← Get req;
  match r with
  | inl err =>
      if IsNotFound err then mret (Result_zero, None)
      else mret (Result_zero, Some err)
  | inr client =>
      '(registered, err) ←
        match ClientID (Status client) with
        | Some id =>
            '(_, registered, err) ← getOAuth2Client id;
            mret (registered, err)
        | None => mret (false, None)
        end;
      match err with
      | Some err => mret (Result_zero, Some err)
      | None =>
          if negb registered then
            err ← registerOAuth2Client client;
            mret (Result_zero, err)
          else mret (Result_zero, None)
      end
  end.

End Reconciler.

(** ** Vocabulary of the statements *)

(** The base endpoint after a request for [relativePath] was built. *)
Definition joined (relativePath : string) (u : url.URL) : url.URL :=
  url.set_Path u (path.Join [url.Path u; relativePath]).

(** The request of a Lookup and of a Create, given the base endpoint at the
    time of the call. *)
Definition lookupRequest (id : string) (u : url.URL) : http.Request :=
  {| http.Method := http.MethodGet;
     http.URL := url.String (joined id u);
     http.Header := {[ "Accept" := "application/json" ]};
     http.Body := None |}.

Definition createRequest (c : OAuth2ClientJSON) (u : url.URL) : http.Request :=
  {| http.Method := http.MethodPost;
     http.URL := url.String (joined "" u);
     http.Header := <[ "Accept" := "application/json" ]>
                      {[ "Content-Type" := "application/json" ]};
     http.Body := Some (http.Encoded c) |}.

(** The outcome of a Lookup from what the transport answered. *)
Definition lookupOutcome (req : http.Request) (answer : error + http.Response)
  : option OAuth2ClientJSON * bool * option error :=
  match answer with
  | inl err => (None, false, Some err)
  | inr resp =>
      match Decode (http.RespBody resp) with
      | (_, Some err) => (None, false, Some err)
      | (v, None) =>
          if Z.eqb (http.StatusCode resp) 200 then (v, true, None)
          else if Z.eqb (http.StatusCode resp) 404 then (None, false, None)
          else (None, false,
                Some (Errorf (http.Method req +:+ " " +:+ http.URL req +:+
                              " http request returned unexpected status code " +:+
                              http.Status resp)))
      end
  end.

Definition createOutcome (req : http.Request) (answer : error + http.Response)
  : option OAuth2ClientJSON * option error :=
  match answer with
  | inl err => (None, Some err)
  | inr resp =>
      match Decode (http.RespBody resp) with
      | (_, Some err) => (None, Some err)
      | (v, None) =>
          if Z.eqb (http.StatusCode resp) 201 then (v, None)
          else if Z.eqb (http.StatusCode resp) 409 then
            (None, Some (Errorf (" " +:+ http.Method req +:+ " " +:+ http.URL req +:+
                                 " http request failed: requested ID already exists")))
          else
            (None, Some (Errorf (http.Method req +:+ " " +:+ http.URL req +:+
                                 " http request returned unexpected status code: " +:+
                                 http.Status resp)))
      end
  end.

(** A registry Create is a POST that left the process. *)
Definition isCreate (c : Call) : bool :=
  match c with
  | CallDo req => String.eqb (http.Method req) http.MethodPost
  | _ => false
  end.

(** Calls that change nothing outside: reading a resource, a GET. *)
Definition isRead (c : Call) : bool :=
  match c with
  | CallGet _ => true
  | CallDo req => String.eqb (http.Method req) http.MethodGet
  | _ => false
  end.

(** [strings.Contains] *)
Fixpoint contains (sub s : string) : bool :=
  String.prefix sub s ||
  match s with
  | EmptyString => false
  | String _ s' => contains sub s'
  end.

(** [n] invocations for the same resource, one after the other, with the
    results in order. *)
Fixpoint ReconcileN (env : Env) (n : nat) (req : NamespacedName)
  : M (list (Result * option error)) :=
  match n with
  | O => mret []
  | S n' =>
      r ← Reconcile env req;
      rs ← ReconcileN env n' req;
      mret (r :: rs)
  end.

(** The reconciler finds the resource unregistered: its status has no
    identifier, or the Lookup of the identifier says not found.  [w0] is the
    world before the Lookup, [w1] the world after it. *)
Definition finds_unregistered (env : Env) (st : OAuth2ClientStatus)
  (w0 w1 : World) : Prop :=
  match ClientID st with
  | None => w1 = w0
  | Some id => exists r, getOAuth2Client env id w0 = (Done (r, false, None), w1)
  end.

(** The registry accepts a creation: it answers 201 with a record that
    carries a non-empty identifier and a secret. *)
Definition accepts_creation (answer : error + http.Response)
  (id secret : string) : Prop :=
  exists resp created,
    answer = inr resp
    /\ http.StatusCode resp = 201
    /\ http.RespBody resp = http.Object created
    /\ json.ClientID created = Some id
    /\ id <> ""
    /\ json.Secret created = Some secret.

(** [res] is returned, nothing is stored, and only reads leave the process. *)
Definition inert (env : Env) (key : NamespacedName) (w : World)
  (res : Result * option error) (w' : World) : Prop :=
  Reconcile env key w = (Done res, w')
  /\ objects w' = objects w
  /\ secrets w' = secrets w
  /\ exists added, calls w' = (calls w ++ added)%list /\ forallb isRead added = true.

(** The resource as [Get] hands it to the reconciler. *)
Definition resource (key : NamespacedName) (sp : OAuth2ClientSpec)
  (st : OAuth2ClientStatus) : OAuth2Client :=
  {| Name := key.2; Namespace := key.1; Spec := sp; Status := st |}.

(** The secret object the reconciler builds for a resource. *)
Definition credentialSecret (key : NamespacedName) (secret : string) : SecretObj :=
  {| SecretName := key.2; SecretNamespace := key.1;
     Data := {[ "client_secret" := secret ]} |}.

(** ** Test fixtures: the scenario of the spec and the servers of
    [TestCRUD] *)

Module Demo.

Definition key : NamespacedName := ("default", "demo").

Definition spec : OAuth2ClientSpec :=
  {| GrantTypes := ["client_credentials"]; ResponseTypes := []; Scope := "read write" |}.

Definition base : url.URL := url.mkURL "http" "hydra" "/clients".

(** A resource that was never registered. *)
Definition fresh : World :=
  {| HydraURL := base;
     objects := {[ key := (spec, {| Secret := None; ClientID := None |}) ]};
     secrets := ∅;
     calls := [] |}.

(** A resource registered earlier under the identifier [old-id]; its
    credential secret is no longer in the store. *)
Definition registered : World :=
  {| HydraURL := base;
     objects := {[ key := (spec, {| Secret := Some "demo"; ClientID := Some "old-id" |}) ]};
     secrets := ∅;
     calls := [] |}.

Definition created : OAuth2ClientJSON :=
  {| json.ClientID := Some "abc123"; json.Name := "demo";
     json.Secret := Some "s3cr3t";
     json.GrantTypes := ["client_credentials"]; json.ResponseTypes := [];
     json.Scope := "read write" |}.

Definition emptyBody : http.body :=
  http.Object {| json.ClientID := None; json.Name := ""; json.Secret := None;
                 json.GrantTypes := []; json.ResponseTypes := []; json.Scope := "" |}.

(** An API server without faults and a registry that answers every GET with
    [onGet] and every other request with [onPost]. *)
Definition server (onGet onPost : http.Response) : Env :=
  {| apiFault := fun _ _ => None;
     transport := fun _ req =>
       if String.eqb (http.Method req) http.MethodGet then inr onGet
       else inr onPost |}.

Definition ok : http.Response :=
  {| http.StatusCode := 200; http.Status := "200 OK"; http.RespBody := http.Object created |}.
Definition createdResp : http.Response :=
  {| http.StatusCode := 201; http.Status := "201 Created"; http.RespBody := http.Object created |}.
Definition notFound : http.Response :=
  {| http.StatusCode := 404; http.Status := "404 Not Found"; http.RespBody := emptyBody |}.
Definition notFoundNoBody : http.Response :=
  {| http.StatusCode := 404; http.Status := "404 Not Found";
     http.RespBody := http.Undecodable "EOF" |}.
Definition conflict : http.Response :=
  {| http.StatusCode := 409; http.Status := "409 Conflict"; http.RespBody := emptyBody |}.
Definition conflictNoBody : http.Response :=
  {| http.StatusCode := 409; http.Status := "409 Conflict";
     http.RespBody := http.Undecodable "EOF" |}.
Definition serverError : http.Response :=
  {| http.StatusCode := 500; http.Status := "500 Internal Server Error";
     http.RespBody := emptyBody |}.

(** The same registry in front of an API server that refuses every secret. *)
Definition refusingSecrets (onGet onPost : http.Response) : Env :=
  {| apiFault := fun _ c =>
       match c with
       | CallCreate _ => Some (APIError "secrets is forbidden")
       | _ => None
       end;
     transport := transport (server onGet onPost) |}.

(** The registries of the tests, by what they answer to a Lookup and to a
    Create. *)
Definition found : Env := server ok createdResp.
Definition lost : Env := server notFound createdResp.
Definition lostNoBody : Env := server notFoundNoBody createdResp.
Definition failing : Env := server serverError createdResp.
Definition conflicting : Env := server notFound conflict.
Definition conflictingNoBody : Env := server notFound conflictNoBody.
Definition forbidden : Env := refusingSecrets notFound createdResp.

(** The reconciler of [TestNewRequest]. *)
Definition testNewRequest : World :=
  {| HydraURL := url.mkURL "http" "" "example.com";
     objects := ∅; secrets := ∅; calls := [] |}.

(** The resource of [fresh] as the reconciler loads it, and what it sends
    to the registry. *)
Definition client : OAuth2Client := resource key spec (mkStatus None None).
Definition desired : OAuth2ClientJSON := ToOAuth2ClientJSON client.

End Demo.

(** ** Vocabulary of the further properties *)

(** What [URL.String] writes in front of a path that is not empty: the
    scheme and, with a scheme or a host, [//] and the escaped host. *)
Definition front (u : url.URL) : string :=
  (if String.eqb (url.Scheme u) "" then "" else url.Scheme u +:+ ":")
  +:+ (if negb (String.eqb (url.Scheme u) "") || negb (String.eqb (url.Host u) "")
       then "//" +:+ url.escape (url.Host u) url.encodeHost
       else "").

(** A single path element: not empty, not [.] or [..], no slash in it. *)
Definition plain (e : string) : bool :=
  negb (String.eqb e "") && negb (String.eqb e ".") && negb (String.eqb e "..")
  && forallb (fun c => negb (Ascii.eqb c path.slash)) (list_ascii_of_string e).

(** A base path as the registry client is configured with: rooted, already
    clean, and not the root itself. *)
Definition cleanBase (p : string) : Prop :=
  path.Clean p = p /\ path.rooted p = true /\ p <> "/".

(** The path after [n] requests for [rel] were built on top of [p]. *)
Fixpoint drifted (n : nat) (rel p : string) : string :=
  match n with
  | O => p
  | S n' => drifted n' rel (p +:+ "/" +:+ rel)
  end.

(** A call an invocation for [key] may make: the read of [key], a GET or a
    POST, the creation of a secret named as [key], the status update of
    [key]. *)
Definition concerns (key : NamespacedName) (c : Call) : bool :=
  match c with
  | CallGet k => bool_decide (k = key)
  | CallDo req =>
      String.eqb (http.Method req) http.MethodGet
      || String.eqb (http.Method req) http.MethodPost
  | CallCreate s => bool_decide ((SecretNamespace s, SecretName s) = key)
  | CallStatusUpdate c => bool_decide ((Namespace c, Name c) = key)
  end.

(** A call after the Create of a registration: it concerns the resource and
    is neither a registry request nor a read. *)
Definition follows_create (key : NamespacedName) (c : Call) : bool :=
  concerns key c && negb (isCreate c) && negb (isRead c).

(** None of the Lookups that [n] invocations in a row make, starting in [w],
    says not found.  An invocation makes its Lookup right after the read,
    when the read did not fail. *)
Fixpoint no_lookup_says_not_found (env : Env) (key : NamespacedName) (id : string)
  (n : nat) (w : World) : Prop :=
  match n with
  | O => True
  | S n' =>
      (apiFault env (calls w) (CallGet key) = None ->
       forall r, fst (getOAuth2Client env id (log (CallGet key) w))
                 <> Done (r, false, None))
      /\ no_lookup_says_not_found env key id n' (snd (Reconcile env key w))
  end.

(** The registry's answer to a Create lets [*created.Secret] fail: a 201
    whose body is [null] or a record without secret. *)
Definition lacks_secret (answer : error + http.Response) : Prop :=
  exists resp,
    answer = inr resp
    /\ http.StatusCode resp = 201
    /\ (http.RespBody resp = http.Null
        \/ exists c, http.RespBody resp = http.Object c /\ json.Secret c = None).

(** Fixtures: registries and API servers that go wrong half way. *)
Module Faulty.

Definition noSecret : http.Response :=
  {| http.StatusCode := 201; http.Status := "201 Created";
     http.RespBody := Demo.emptyBody |}.

Definition noID : http.Response :=
  {| http.StatusCode := 201; http.Status := "201 Created";
     http.RespBody :=
       http.Object {| json.ClientID := None; json.Name := "demo";
                      json.Secret := Some "s3cr3t";
                      json.GrantTypes := ["client_credentials"];
                      json.ResponseTypes := []; json.Scope := "read write" |} |}.

(** The registry creates a record and answers without its secret. *)
Definition secretless : Env := Demo.server Demo.notFound noSecret.

(** The registry creates a record and answers without its identifier. *)
Definition nameless : Env := Demo.server Demo.notFound noID.

(** The API server cannot be reached for reads. *)
Definition unreachable : Env :=
  {| apiFault := fun _ c =>
       match c with
       | CallGet _ => Some (APIError "connection refused")
       | _ => None
       end;
     transport := transport Demo.found |}.

(** The API server takes secrets and refuses status updates. *)
Definition statusConflict : Env :=
  {| apiFault := fun _ c =>
       match c with
       | CallStatusUpdate _ => Some (APIError "the object has been modified")
       | _ => None
       end;
     transport := transport Demo.lost |}.

(** A resource that was never registered while a secret of its name is
    already in the store, as an invocation whose status update was refused
    leaves it. *)
Definition orphaned : World :=
  {| HydraURL := Demo.base;
     objects := {[ Demo.key := (Demo.spec, {| Secret := None; ClientID := None |}) ]};
     secrets := {[ Demo.key := credentialSecret Demo.key "s3cr3t" ]};
     calls := [] |}.

(** The record the registry holds under [old-id]. *)
Definition held : OAuth2ClientJSON :=
  {| json.ClientID := Some "old-id"; json.Name := "demo"; json.Secret := None;
     json.GrantTypes := ["client_credentials"]; json.ResponseTypes := [];
     json.Scope := "read write" |}.

(** A registry that goes by the URL: it serves the record at
    [http://hydra/clients/old-id], takes creations at
    [http://hydra/clients], and answers 404 everywhere else. *)
Definition byURL : Env :=
  {| apiFault := fun _ _ => None;
     transport := fun _ req =>
       if String.eqb (http.Method req) http.MethodGet then
         if String.eqb (http.URL req) "http://hydra/clients/old-id"
         then inr {| http.StatusCode := 200; http.Status := "200 OK";
                     http.RespBody := http.Object held |}
         else inr Demo.notFound
       else
         if String.eqb (http.URL req) "http://hydra/clients"
         then inr Demo.createdResp
         else inr Demo.notFound |}.

(** The registry itself cannot be reached. *)
Definition offline : Env :=
  {| apiFault := fun _ _ => None;
     transport := fun _ _ => inl (TransportError "dial tcp: connection refused") |}.

End Faulty.

(** * Properties *)

(** ** The models of [path] and [net/url] on the values of the tests *)

Example path_Join_clients : path.Join ["/clients"; "test-id"] = "/clients/test-id".
Proof. reflexivity. Qed.

Example path_Join_empty_rel : path.Join ["/clients"; ""] = "/clients".
Proof. reflexivity. Qed.

Example path_Join_dots : path.Join ["a/b/../c/./"; "../../../x"] = "../x".
Proof. reflexivity. Qed.

Example path_Join_all_empty : path.Join [""; ""] = "".
Proof. reflexivity. Qed.

Example url_String_escapes :
  url.String (url.mkURL "http" "hydra" "/clients/a b?c#d%e")
  = "http://hydra/clients/a%20b%3Fc%23d%25e".
Proof. reflexivity. Qed.

Example url_String_keeps :
  url.String (url.mkURL "http" "hydra:4445" "/clients/a-b_c.d~e$f&g+h,i:j;k=l@m")
  = "http://hydra:4445/clients/a-b_c.d~e$f&g+h,i:j;k=l@m".
Proof. reflexivity. Qed.

Example url_String_colon_first :
  url.String (url.mkURL "" "" "a:b/c") = "./a:b/c".
Proof. reflexivity. Qed.

Example url_String_example :
  url.String (url.mkURL "http" "" "example.com") = "http://example.com".
Proof. reflexivity. Qed.


(** ** Equations of the registry client *)

Ltac run := unfold mbind, M_bind, mret, M_ret; cbn.

Lemma newRequest_lookup id w :
  newRequest http.MethodGet id None w =
  (Done (Some (lookupRequest id (HydraURL w)), None),
   set_HydraURL (joined id (HydraURL w)) w).
Proof. reflexivity. Qed.

Lemma newRequest_create c w :
  newRequest http.MethodPost "" (Some c) w =
  (Done (Some (createRequest c (HydraURL w)), None),
   set_HydraURL (joined "" (HydraURL w)) w).
Proof. reflexivity. Qed.

Lemma newRequest_HydraURL method relativePath body w :
  HydraURL (snd (newRequest method relativePath body w)) =
  joined relativePath (HydraURL w).
Proof.
  unfold newRequest. run.
  destruct (http.NewRequest _ _ _); reflexivity.
Qed.

Lemma getOAuth2Client_eq env id w :
  let req := lookupRequest id (HydraURL w) in
  getOAuth2Client env id w =
  (Done (lookupOutcome req (transport env (calls w) req)),
   log (CallDo req) (set_HydraURL (joined id (HydraURL w)) w)).
Proof.
  unfold getOAuth2Client. run. rewrite newRequest_lookup.
  unfold do, HTTPClient_Do. run.
  destruct (transport env (calls w) _) as [e | resp]; cbn; [reflexivity |].
  destruct (http.RespBody resp); cbn; try reflexivity;
    destruct (Z.eqb (http.StatusCode resp) _); try reflexivity;
    destruct (Z.eqb (http.StatusCode resp) _); reflexivity.
Qed.

Lemma postOAuth2Client_eq env c w :
  let req := createRequest c (HydraURL w) in
  postOAuth2Client env c w =
  (Done (createOutcome req (transport env (calls w) req)),
   log (CallDo req) (set_HydraURL (joined "" (HydraURL w)) w)).
Proof.
  unfold postOAuth2Client. run. rewrite newRequest_create.
  unfold do, HTTPClient_Do. run.
  destruct (transport env (calls w) _) as [e | resp]; cbn; [reflexivity |].
  destruct (http.RespBody resp); cbn; try reflexivity;
    destruct (Z.eqb (http.StatusCode resp) _); try reflexivity;
    destruct (Z.eqb (http.StatusCode resp) _); reflexivity.
Qed.

(** ** Lookup: [getOAuth2Client] *)

(** C4 (amended): provided the response body decodes, Lookup answers by the
    status code alone: 200 gives the decoded record with found = true and no
    error; 404 gives no record, found = false and no error; any other status
    gives an error whose message is the request method, the request URL and
    the status text around a fixed phrase.  When the body does not decode,
    Lookup returns the decoder's error whatever the status. *)
Theorem getOAuth2Client_status_mapping env id w resp :
  let req := lookupRequest id (HydraURL w) in
  transport env (calls w) req = inr resp ->
  (forall record, Decode (http.RespBody resp) = (record, None) ->
     (http.StatusCode resp = 200 ->
      fst (getOAuth2Client env id w) = Done (record, true, None))
     /\ (http.StatusCode resp = 404 ->
         fst (getOAuth2Client env id w) = Done (None, false, None))
     /\ (http.StatusCode resp <> 200 -> http.StatusCode resp <> 404 ->
         exists err,
           fst (getOAuth2Client env id w) = Done (None, false, Some err)
           /\ Error err =
                "GET" +:+ " " +:+ http.URL req +:+
                " http request returned unexpected status code " +:+
                http.Status resp))
  /\ (forall msg, http.RespBody resp = http.Undecodable msg ->
        fst (getOAuth2Client env id w) = Done (None, false, Some (DecodeError msg))).
Proof.
  intros req Htr. rewrite getOAuth2Client_eq. cbn [fst].
  fold req. rewrite Htr. unfold lookupOutcome. split.
  - intros record Hdec. rewrite Hdec. repeat split.
    + intros ->. reflexivity.
    + intros ->. reflexivity.
    + intros H200 H404.
      apply Z.eqb_neq in H200, H404. rewrite H200, H404.
      eexists. split; reflexivity.
  - intros msg ->. reflexivity.
Qed.

Lemma getOAuth2Client_status_mapping_witness :
  fst (getOAuth2Client Demo.found "abc123" Demo.fresh)
    = Done (Some Demo.created, true, None)
  /\ (exists err,
        fst (getOAuth2Client Demo.failing "abc123" Demo.fresh)
          = Done (None, false, Some err)
        /\ Error err =
             "GET http://hydra/clients/abc123 http request returned unexpected status code 500 Internal Server Error")
  /\ fst (getOAuth2Client Demo.lostNoBody "abc123" Demo.fresh)
     = Done (None, false, Some (DecodeError "EOF")).
Proof.
  repeat apply conj.
  - apply (proj1 (getOAuth2Client_status_mapping Demo.found "abc123" Demo.fresh
                    Demo.ok eq_refl) (Some Demo.created) eq_refl).
    reflexivity.
  - apply (proj1 (getOAuth2Client_status_mapping Demo.failing "abc123" Demo.fresh
                    Demo.serverError eq_refl) _ eq_refl);
      discriminate.
  - apply (proj2 (getOAuth2Client_status_mapping Demo.lostNoBody "abc123" Demo.fresh
                    Demo.notFoundNoBody eq_refl) "EOF" eq_refl).
Defined.

(** C4 as written fails: a 404 whose body does not decode (here an empty
    body, on which the decoder reports EOF) makes Lookup return an error. *)
Lemma getOAuth2Client_404_is_an_error :
  transport Demo.lostNoBody (calls Demo.fresh)
    (lookupRequest "abc123" (HydraURL Demo.fresh)) = inr Demo.notFoundNoBody
  /\ http.StatusCode Demo.notFoundNoBody = 404
  /\ fst (getOAuth2Client Demo.lostNoBody "abc123" Demo.fresh)
       = Done (None, false, Some (DecodeError "EOF"))
  /\ fst (getOAuth2Client Demo.lostNoBody "abc123" Demo.fresh)
       <> Done (None, false, None).
Proof. repeat split. discriminate. Qed.

(** C10: the body is decoded before the status is looked at.  On a 404 whose
    body does not decode Lookup returns the decoder's error, and it returns
    (nil, false, nil) exactly when the body decodes. *)
Theorem getOAuth2Client_decodes_before_classifying env id w resp :
  transport env (calls w) (lookupRequest id (HydraURL w)) = inr resp ->
  http.StatusCode resp = http.StatusNotFound ->
  (forall msg, http.RespBody resp = http.Undecodable msg ->
     fst (getOAuth2Client env id w) = Done (None, false, Some (DecodeError msg)))
  /\ (fst (getOAuth2Client env id w) = Done (None, false, None)
      <-> exists v, Decode (http.RespBody resp) = (v, None)).
Proof.
  intros Htr Hst. rewrite getOAuth2Client_eq. cbn [fst].
  rewrite Htr. unfold lookupOutcome. rewrite Hst. split.
  - intros msg ->. reflexivity.
  - destruct (http.RespBody resp) as [msg | | c]; cbn.
    + split; [discriminate | intros [v Hv]; discriminate].
    + split; [eauto | reflexivity].
    + split; [eauto | reflexivity].
Qed.

Lemma getOAuth2Client_decodes_before_classifying_witness :
  fst (getOAuth2Client Demo.lostNoBody "abc123" Demo.fresh)
    = Done (None, false, Some (DecodeError "EOF")).
Proof.
  apply (proj1 (getOAuth2Client_decodes_before_classifying Demo.lostNoBody "abc123"
                  Demo.fresh Demo.notFoundNoBody eq_refl eq_refl)
           "EOF" eq_refl).
Defined.

(** ** Create: [postOAuth2Client] and the start of [registerOAuth2Client] *)

Lemma contains_prefix sub s : String.prefix sub s = true -> contains sub s = true.
Proof. intros H. destruct s; cbn [contains]; rewrite H; reflexivity. Qed.

Lemma contains_cons sub c s : contains sub s = true -> contains sub (String c s) = true.
Proof. intros H. cbn [contains]. rewrite H. apply orb_true_r. Qed.

Lemma contains_app_r sub t s : contains sub s = true -> contains sub (t +:+ s) = true.
Proof.
  intros H. induction t as [| c t IH]; [exact H |].
  cbn [String.append]. apply contains_cons, IH.
Qed.

(** An error of Create ends the registration where it stands: only the POST
    has left the process, nothing was stored. *)
Lemma registerOAuth2Client_create_failed env client w err :
  let req := createRequest (ToOAuth2ClientJSON client) (HydraURL w) in
  snd (createOutcome req (transport env (calls w) req)) = Some err ->
  exists w',
    registerOAuth2Client env client w = (Done (Some err), w')
    /\ objects w' = objects w
    /\ secrets w' = secrets w
    /\ calls w' = (calls w ++ [CallDo req])%list.
Proof.
  intros req H. unfold registerOAuth2Client. run.
  rewrite postOAuth2Client_eq. fold req.
  destruct (createOutcome req _) as [created oerr]. cbn in H. subst oerr.
  eexists. repeat split.
Qed.

(** C5 (amended): provided the response body decodes, Create answers by the
    status code alone: 201 gives the decoded record and no error; 409 gives
    an error whose message contains [already exists]; any other status gives
    the generic unexpected-status error.  On 409 the registration stops with
    that error and the stored status is what it was.  When the body does not
    decode, Create returns the decoder's error whatever the status. *)
Theorem postOAuth2Client_status_mapping env client w resp :
  let c := ToOAuth2ClientJSON client in
  let req := createRequest c (HydraURL w) in
  transport env (calls w) req = inr resp ->
  (forall record, Decode (http.RespBody resp) = (record, None) ->
     (http.StatusCode resp = 201 ->
      fst (postOAuth2Client env c w) = Done (record, None))
     /\ (http.StatusCode resp = 409 ->
         exists err w',
           fst (postOAuth2Client env c w) = Done (None, Some err)
           /\ contains "already exists" (Error err) = true
           /\ registerOAuth2Client env client w = (Done (Some err), w')
           /\ objects w' = objects w
           /\ secrets w' = secrets w
           /\ calls w' = (calls w ++ [CallDo req])%list)
     /\ (http.StatusCode resp <> 201 -> http.StatusCode resp <> 409 ->
         exists err,
           fst (postOAuth2Client env c w) = Done (None, Some err)
           /\ Error err =
                "POST" +:+ " " +:+ http.URL req +:+
                " http request returned unexpected status code: " +:+
                http.Status resp))
  /\ (forall msg, http.RespBody resp = http.Undecodable msg ->
        fst (postOAuth2Client env c w) = Done (None, Some (DecodeError msg))).
Proof.
  intros c req Htr.
  pose proof (registerOAuth2Client_create_failed env client w) as Hreg.
  cbn zeta in Hreg. fold c req in Hreg.
  rewrite postOAuth2Client_eq. cbn [fst]. fold req.
  rewrite Htr in *. unfold createOutcome in *. split.
  - intros record Hdec. rewrite Hdec in *. repeat split.
    + intros ->. reflexivity.
    + intros H409. rewrite H409 in Hreg. cbn in Hreg.
      destruct (Hreg _ eq_refl) as (w' & Hr & Ho & Hs & Hc).
      rewrite H409. cbn.
      eexists _, w'. repeat split; try eassumption.
      cbn [Error]. apply contains_cons, (contains_app_r _ "POST"), contains_cons.
      apply contains_app_r. reflexivity.
    + intros H201 H409.
      apply Z.eqb_neq in H201, H409. rewrite H201, H409.
      eexists. split; reflexivity.
  - intros msg ->. reflexivity.
Qed.

Lemma postOAuth2Client_status_mapping_witness :
  exists err w',
    fst (postOAuth2Client Demo.conflicting Demo.desired Demo.fresh)
      = Done (None, Some err)
    /\ contains "already exists" (Error err) = true
    /\ registerOAuth2Client Demo.conflicting Demo.client Demo.fresh
       = (Done (Some err), w')
    /\ objects w' = objects Demo.fresh
    /\ secrets w' = secrets Demo.fresh
    /\ calls w' = (calls Demo.fresh
                   ++ [CallDo (createRequest Demo.desired (HydraURL Demo.fresh))])%list.
Proof.
  apply (proj1 (postOAuth2Client_status_mapping Demo.conflicting Demo.client
                  Demo.fresh Demo.conflict eq_refl) _ eq_refl).
  reflexivity.
Defined.

(** C5 as written fails: a 409 whose body does not decode makes Create
    return the decoder's error, which does not mention [already exists]. *)
Lemma postOAuth2Client_409_without_already_exists :
  transport Demo.conflictingNoBody (calls Demo.fresh)
    (createRequest Demo.desired (HydraURL Demo.fresh)) = inr Demo.conflictNoBody
  /\ http.StatusCode Demo.conflictNoBody = 409
  /\ fst (postOAuth2Client Demo.conflictingNoBody Demo.desired Demo.fresh)
       = Done (None, Some (DecodeError "EOF"))
  /\ contains "already exists" (Error (DecodeError "EOF")) = false.
Proof. repeat split. Qed.

(** ** Building requests: [newRequest] *)

(** C9: every request [newRequest] builds has Accept set to
    application/json; Content-Type is application/json when a body was
    given and is not set otherwise; the body, when given, is the JSON
    encoding of the client representation passed in. *)
Theorem newRequest_headers_and_body method relativePath body w req :
  fst (newRequest method relativePath body w) = Done (Some req, None) ->
  http.Header req !! "Accept" = Some "application/json"
  /\ http.Header req !! "Content-Type" =
       match body with
       | Some _ => Some "application/json"
       | None => None
       end
  /\ http.Body req =
       match body with
       | Some c => Some (http.Encoded c)
       | None => None
       end.
Proof.
  unfold newRequest. run. unfold http.NewRequest.
  destruct (http.validMethod _); cbn; [| discriminate].
  intros H. injection H as <-.
  destruct body; cbn; repeat split; reflexivity.
Qed.

Lemma newRequest_headers_and_body_witness :
  http.Header (createRequest Demo.desired Demo.base) !! "Accept"
    = Some "application/json"
  /\ http.Header (createRequest Demo.desired Demo.base) !! "Content-Type"
     = Some "application/json"
  /\ http.Body (createRequest Demo.desired Demo.base)
     = Some (http.Encoded Demo.desired).
Proof.
  apply (newRequest_headers_and_body http.MethodPost "" (Some Demo.desired)
           Demo.fresh (createRequest Demo.desired Demo.base)).
  reflexivity.
Defined.

(** What Lookup and Create send: a Lookup carries no body and no
    Content-Type, a Create carries both. *)
Lemma getOAuth2Client_sends env id w :
  let req := lookupRequest id (HydraURL w) in
  calls (snd (getOAuth2Client env id w)) = (calls w ++ [CallDo req])%list
  /\ http.Header req !! "Accept" = Some "application/json"
  /\ http.Header req !! "Content-Type" = None
  /\ http.Body req = None.
Proof. intro req. rewrite getOAuth2Client_eq. repeat split. Qed.

Lemma postOAuth2Client_sends env c w :
  let req := createRequest c (HydraURL w) in
  calls (snd (postOAuth2Client env c w)) = (calls w ++ [CallDo req])%list
  /\ http.Header req !! "Accept" = Some "application/json"
  /\ http.Header req !! "Content-Type" = Some "application/json"
  /\ http.Body req = Some (http.Encoded c).
Proof. intro req. rewrite postOAuth2Client_eq. repeat split. Qed.

(** C8: [newRequest] writes the joined path back through the [HydraURL]
    pointer, so the registry client is not stateless.  After a Lookup of
    [test-id] the base endpoint is [/clients/test-id], and the Create built
    next goes to [http://hydra/clients/test-id], not to
    [http://hydra/clients].  In the GET case of [TestNewRequest] the request
    goes to [http://example.com/some-endpoint], while the URL the test
    expects, the base endpoint after the call followed by the relative
    path, is [http://example.com/some-endpoint/some-endpoint]. *)
Theorem newRequest_moves_the_base_endpoint :
  url.String (HydraURL Demo.fresh) = "http://hydra/clients"
  /\ url.String (HydraURL (snd (newRequest http.MethodGet "test-id" None Demo.fresh)))
     = "http://hydra/clients/test-id"
  /\ (exists req,
        fst (newRequest http.MethodPost "" (Some Demo.desired)
               (snd (newRequest http.MethodGet "test-id" None Demo.fresh)))
          = Done (Some req, None)
        /\ http.URL req = "http://hydra/clients/test-id")
  /\ (exists req,
        fst (newRequest http.MethodPost "" (Some Demo.desired) Demo.fresh)
          = Done (Some req, None)
        /\ http.URL req = "http://hydra/clients")
  /\ (exists req w',
        newRequest http.MethodGet "some-endpoint" None Demo.testNewRequest
          = (Done (Some req, None), w')
        /\ http.URL req = "http://example.com/some-endpoint"
        /\ url.String (HydraURL w') +:+ "/" +:+ "some-endpoint"
           = "http://example.com/some-endpoint/some-endpoint").
Proof.
  repeat apply conj; try reflexivity.
  - eexists. split; reflexivity.
  - eexists. split; reflexivity.
  - eexists _, _. repeat split.
Qed.

(** ** Frame: what the registry client leaves alone *)

Lemma getOAuth2Client_Done env id w :
  exists r, fst (getOAuth2Client env id w) = Done r.
Proof. rewrite getOAuth2Client_eq. eauto. Qed.

Lemma getOAuth2Client_frame env id w :
  let w' := snd (getOAuth2Client env id w) in
  objects w' = objects w /\ secrets w' = secrets w
  /\ calls w' = (calls w ++ [CallDo (lookupRequest id (HydraURL w))])%list.
Proof. rewrite getOAuth2Client_eq. repeat split. Qed.

Lemma postOAuth2Client_frame env c w :
  let w' := snd (postOAuth2Client env c w) in
  objects w' = objects w /\ secrets w' = secrets w
  /\ calls w' = (calls w ++ [CallDo (createRequest c (HydraURL w))])%list.
Proof. rewrite postOAuth2Client_eq. repeat split. Qed.

Lemma isRead_not_isCreate c : isRead c = true -> isCreate c = false.
Proof.
  destruct c as [k | req | s | cl]; cbn; try reflexivity; try discriminate.
  intros H. apply String.eqb_eq in H. rewrite H. reflexivity.
Qed.

Lemma forallb_isRead_no_create l :
  forallb isRead l = true -> existsb isCreate l = false.
Proof.
  induction l as [| c l IH]; cbn; [reflexivity |].
  intros H. apply andb_true_iff in H as [Hc Hl].
  rewrite (isRead_not_isCreate c Hc), (IH Hl). reflexivity.
Qed.

(** ** Equations of [Reconcile] *)

Ltac open_Reconcile :=
  unfold Reconcile, Get, mbind, M_bind, mret, M_ret; cbn beta iota zeta.

Lemma Reconcile_Get_failed env key w err :
  apiFault env (calls w) (CallGet key) = Some err ->
  Reconcile env key w =
  (Done (Result_zero, if IsNotFound err then None else Some err),
   log (CallGet key) w).
Proof.
  intros H. open_Reconcile. rewrite H.
  destruct (IsNotFound err); reflexivity.
Qed.

Lemma Reconcile_absent env key w :
  objects w !! key = None ->
  apiFault env (calls w) (CallGet key) = None ->
  Reconcile env key w = (Done (Result_zero, None), log (CallGet key) w).
Proof. intros Ho Hf. open_Reconcile. rewrite Hf, Ho. reflexivity. Qed.

(** With an identifier recorded, a Lookup that finds the record or fails
    ends the invocation. *)
Lemma Reconcile_lookup_ends env key w sp st id r found err w1 :
  objects w !! key = Some (sp, st) ->
  apiFault env (calls w) (CallGet key) = None ->
  ClientID st = Some id ->
  getOAuth2Client env id (log (CallGet key) w) = (Done (r, found, err), w1) ->
  found = true \/ err <> None ->
  Reconcile env key w = (Done (Result_zero, err), w1).
Proof.
  intros Ho Hf Hid Hget Hcase. open_Reconcile.
  rewrite Hf, Ho. cbn [Status]. rewrite Hid, Hget.
  destruct err as [e |]; [reflexivity |].
  destruct Hcase as [-> | Hne]; [reflexivity | congruence].
Qed.

(** Found unregistered, the resource is registered; the invocation returns
    what the registration returns. *)
Lemma Reconcile_registers env key w sp st w1 :
  objects w !! key = Some (sp, st) ->
  apiFault env (calls w) (CallGet key) = None ->
  finds_unregistered env st (log (CallGet key) w) w1 ->
  Reconcile env key w =
  (match fst (registerOAuth2Client env (resource key sp st) w1) with
   | Done err => Done (Result_zero, err)
   | Panic msg => Panic msg
   end,
   snd (registerOAuth2Client env (resource key sp st) w1)).
Proof.
  intros Ho Hf Hun. open_Reconcile. rewrite Hf, Ho. cbn [Status].
  unfold finds_unregistered in Hun. fold (resource key sp st).
  destruct (ClientID st) as [id |].
  - destruct Hun as [r Hget]. rewrite Hget. cbn [negb].
    destruct (registerOAuth2Client env _ w1) as [[e | m] w2]; reflexivity.
  - subst w1. cbn [negb].
    destruct (registerOAuth2Client env _ _) as [[e | m] w2]; reflexivity.
Qed.

(** ** The base endpoint drifts *)

Lemma registerOAuth2Client_HydraURL env client w :
  HydraURL (snd (registerOAuth2Client env client w)) = joined "" (HydraURL w).
Proof.
  unfold registerOAuth2Client. run. rewrite postOAuth2Client_eq.
  destruct (createOutcome _ _) as [created [err |]]; cbn; [reflexivity |].
  destruct created as [created |]; cbn; [| reflexivity].
  destruct (json.Secret created) as [secret |]; cbn; [| reflexivity].
  unfold Create. cbn.
  destruct (apiFault env _ (CallCreate _)); cbn; [reflexivity |].
  destruct (secrets w !! _); cbn; [reflexivity |].
  unfold StatusUpdate. cbn.
  destruct (apiFault env _ (CallStatusUpdate _)); cbn; [reflexivity |].
  destruct (objects w !! _) as [[sp0 st0] |]; reflexivity.
Qed.

(** What one invocation does to the base endpoint of a resource with a
    recorded identifier: the identifier is joined on, and after a
    re-registration the result is cleaned once more. *)
Lemma Reconcile_moves_the_base_endpoint env key w sp st id :
  objects w !! key = Some (sp, st) ->
  ClientID st = Some id ->
  apiFault env (calls w) (CallGet key) = None ->
  HydraURL (snd (Reconcile env key w)) = joined id (HydraURL w)
  \/ HydraURL (snd (Reconcile env key w)) = joined "" (joined id (HydraURL w)).
Proof.
  intros Ho Hid Hf.
  pose proof (getOAuth2Client_eq env id (log (CallGet key) w)) as Hget.
  cbn zeta in Hget.
  destruct (lookupOutcome _ _) as [[r found] err].
  destruct found; [| destruct err as [e |]].
  - left.
    rewrite (Reconcile_lookup_ends env key w sp st id _ _ _ _ Ho Hf Hid Hget);
      [reflexivity | left; reflexivity].
  - left.
    rewrite (Reconcile_lookup_ends env key w sp st id _ _ _ _ Ho Hf Hid Hget);
      [reflexivity | right; discriminate].
  - right.
    assert (Hun : finds_unregistered env st (log (CallGet key) w)
                    (log (CallDo (lookupRequest id (HydraURL w)))
                       (set_HydraURL (joined id (HydraURL w)) (log (CallGet key) w))))
      by (unfold finds_unregistered; rewrite Hid; eauto).
    rewrite (Reconcile_registers env key w sp st _ Ho Hf Hun).
    cbn [snd]. rewrite registerOAuth2Client_HydraURL. reflexivity.
Qed.

(** ** A resource that is gone *)

(** C6: when the resource is absent from the store at load time, so that the
    read reports not found, Reconcile returns success; the read is the only
    call it makes, so there is no registry call, no secret and no status
    update. *)
Theorem Reconcile_deleted_resource env key w :
  objects w !! key = None ->
  (forall err, apiFault env (calls w) (CallGet key) = Some err ->
               IsNotFound err = true) ->
  exists w',
    Reconcile env key w = (Done (Result_zero, None), w')
    /\ calls w' = (calls w ++ [CallGet key])%list
    /\ objects w' = objects w
    /\ secrets w' = secrets w
    /\ HydraURL w' = HydraURL w.
Proof.
  intros Ho Hf.
  destruct (apiFault env (calls w) (CallGet key)) as [err |] eqn:Hfault.
  - rewrite (Reconcile_Get_failed env key w err Hfault), (Hf err eq_refl).
    eexists. repeat split.
  - rewrite (Reconcile_absent env key w Ho Hfault).
    eexists. repeat split.
Qed.

Lemma Reconcile_deleted_resource_witness :
  exists w',
    Reconcile Demo.found ("default", "gone") Demo.fresh
      = (Done (Result_zero, None), w')
    /\ calls w' = [CallGet ("default", "gone")]
    /\ objects w' = objects Demo.fresh
    /\ secrets w' = secrets Demo.fresh
    /\ HydraURL w' = HydraURL Demo.fresh.
Proof.
  apply (Reconcile_deleted_resource Demo.found ("default", "gone") Demo.fresh).
  - reflexivity.
  - intros err H. discriminate H.
Defined.

(** ** Registration: [registerOAuth2Client] *)

(** Create succeeded, the secret was refused: the registration returns the
    error of the API server right after that call. *)
Lemma registerOAuth2Client_secret_refused env client w w1 created secret err :
  let sec := {| SecretName := Name client; SecretNamespace := Namespace client;
                Data := {[ "client_secret" := secret ]} |} in
  postOAuth2Client env (ToOAuth2ClientJSON client) w = (Done (Some created, None), w1) ->
  json.Secret created = Some secret ->
  fst (Create env sec w1) = Done (Some err) ->
  exists w',
    registerOAuth2Client env client w = (Done (Some err), w')
    /\ objects w' = objects w
    /\ secrets w' = secrets w
    /\ calls w' = (calls w1 ++ [CallCreate sec])%list.
Proof.
  intros sec Hpost Hsecret Hcreate.
  destruct (postOAuth2Client_frame env (ToOAuth2ClientJSON client) w) as (Ho & Hs & _).
  rewrite Hpost in Ho, Hs. cbn [snd] in Ho, Hs.
  unfold registerOAuth2Client. run. rewrite Hpost. cbn. rewrite Hsecret.
  fold sec. revert Hcreate. unfold Create. cbn.
  destruct (apiFault env (calls w1) (CallCreate sec)) as [e |]; cbn.
  - intros [= ->]. eexists. repeat split; assumption.
  - destruct (secrets w1 !! _); cbn; [| discriminate].
    intros [= <-]. eexists. repeat split; assumption.
Qed.

(** Create succeeded and the API server took both the secret and the
    status: the world after the registration. *)
Lemma registerOAuth2Client_succeeds env key sp st st0 w id secret :
  let client := resource key sp st in
  let req := createRequest (ToOAuth2ClientJSON client) (HydraURL w) in
  let sec := credentialSecret key secret in
  let st' := {| Secret := Some key.2; ClientID := Some id |} in
  accepts_creation (transport env (calls w) req) id secret ->
  objects w !! key = Some (sp, st0) ->
  secrets w !! key = None ->
  apiFault env (calls w ++ [CallDo req]) (CallCreate sec) = None ->
  apiFault env (calls w ++ [CallDo req; CallCreate sec])
    (CallStatusUpdate (resource key sp st')) = None ->
  registerOAuth2Client env client w =
  (Done None,
   {| HydraURL := joined "" (HydraURL w);
      objects := <[key := (sp, st')]> (objects w);
      secrets := <[key := sec]> (secrets w);
      calls := calls w ++ [CallDo req; CallCreate sec;
                           CallStatusUpdate (resource key sp st')] |}).
Proof.
  intros client req sec st' (resp & created & Htr & H201 & Hbody & Hid & _ & Hsecret)
    Ho Hs Hf1 Hf2.
  unfold registerOAuth2Client. run.
  rewrite postOAuth2Client_eq. fold req. rewrite Htr.
  unfold createOutcome. rewrite Hbody, H201. cbn. rewrite Hsecret, Hid.
  destruct key as [ns name].
  unfold Create, StatusUpdate, log, set_secrets, set_objects, set_HydraURL.
  cbn [SecretName SecretNamespace Name Namespace Status Spec fst snd
       calls objects secrets HydraURL].
  change (mkSecret name ns {[ "client_secret" := secret ]}) with sec.
  rewrite Hf1, Hs. cbn beta iota zeta.
  cbn [SecretName SecretNamespace Name Namespace Status Spec fst snd
       calls objects secrets HydraURL].
  rewrite <- !app_assoc. cbn [app].
  change (mkClient name ns sp (mkStatus (Some name) (Some id)))
    with (resource (ns, name) sp st').
  rewrite Hf2, Ho. reflexivity.
Qed.

Lemma finds_unregistered_frame env st w0 w1 :
  finds_unregistered env st w0 w1 ->
  objects w1 = objects w0 /\ secrets w1 = secrets w0.
Proof.
  unfold finds_unregistered. destruct (ClientID st) as [id |].
  - intros [r Hget].
    destruct (getOAuth2Client_frame env id w0) as (Ho & Hs & _).
    rewrite Hget in Ho, Hs. split; assumption.
  - intros ->. split; reflexivity.
Qed.

(** C7: when the registry Create succeeds and the API server then refuses
    the credential secret, the invocation returns that error; the stored
    resource, its status included, is what it was; and the refused call is
    the last one made, so nothing is sent to the registry to undo the
    record just created. *)
Theorem Reconcile_secret_not_persisted env key w sp st w1 w2 created secret err :
  let client := resource key sp st in
  let sec := credentialSecret key secret in
  objects w !! key = Some (sp, st) ->
  apiFault env (calls w) (CallGet key) = None ->
  finds_unregistered env st (log (CallGet key) w) w1 ->
  postOAuth2Client env (ToOAuth2ClientJSON client) w1
    = (Done (Some created, None), w2) ->
  json.Secret created = Some secret ->
  fst (Create env sec w2) = Done (Some err) ->
  exists w',
    Reconcile env key w = (Done (Result_zero, Some err), w')
    /\ objects w' = objects w
    /\ objects w' !! key = Some (sp, st)
    /\ secrets w' = secrets w
    /\ calls w' = (calls w2 ++ [CallCreate sec])%list.
Proof.
  intros client sec Ho Hf Hun Hpost Hsecret Hcreate.
  rewrite (Reconcile_registers env key w sp st w1 Ho Hf Hun).
  destruct (finds_unregistered_frame env st _ w1 Hun) as [Ho1 Hs1].
  destruct (registerOAuth2Client_secret_refused env client w1 w2 created secret err
              Hpost Hsecret Hcreate) as (w' & Hreg & Ho' & Hs' & Hc').
  fold client. rewrite Hreg. cbn [fst snd].
  exists w'. repeat split.
  - rewrite Ho', Ho1. reflexivity.
  - rewrite Ho', Ho1. exact Ho.
  - rewrite Hs', Hs1. reflexivity.
  - exact Hc'.
Qed.

Lemma Reconcile_secret_not_persisted_witness :
  exists w',
    Reconcile Demo.forbidden Demo.key Demo.fresh
      = (Done (Result_zero, Some (APIError "secrets is forbidden")), w')
    /\ objects w' = objects Demo.fresh
    /\ objects w' !! Demo.key = Some (Demo.spec, mkStatus None None)
    /\ secrets w' = secrets Demo.fresh
    /\ calls w' =
         [CallGet Demo.key;
          CallDo (createRequest Demo.desired Demo.base);
          CallCreate (credentialSecret Demo.key "s3cr3t")].
Proof.
  apply (Reconcile_secret_not_persisted Demo.forbidden Demo.key Demo.fresh Demo.spec
           (mkStatus None None) (log (CallGet Demo.key) Demo.fresh)
           (snd (postOAuth2Client Demo.forbidden Demo.desired
                   (log (CallGet Demo.key) Demo.fresh)))
           Demo.created "s3cr3t" (APIError "secrets is forbidden"));
    reflexivity.
Defined.

(** ** First registration *)

(** C1 as written fails: the registry accepts the creation, but a secret of
    the resource's name is already in the store (the state an invocation
    with a refused status update leaves behind), or the API server refuses
    the secret.  The Create is sent, the invocation returns the API
    server's error and the status stays without identifier. *)
Lemma Reconcile_accepted_creation_not_stored :
  objects Faulty.orphaned !! Demo.key = Some (Demo.spec, mkStatus None None)
  /\ objects Faulty.orphaned
     = objects (snd (Reconcile Faulty.statusConflict Demo.key Demo.fresh))
  /\ secrets Faulty.orphaned
     = secrets (snd (Reconcile Faulty.statusConflict Demo.key Demo.fresh))
  /\ accepts_creation
       (transport Demo.lost (calls Faulty.orphaned ++ [CallGet Demo.key])
          (createRequest Demo.desired Demo.base))
       "abc123" "s3cr3t"
  /\ fst (Reconcile Demo.lost Demo.key Faulty.orphaned)
     = Done (Result_zero, Some (APIError "secrets demo already exists"))
  /\ objects (snd (Reconcile Demo.lost Demo.key Faulty.orphaned)) !! Demo.key
     = Some (Demo.spec, mkStatus None None)
  /\ fst (Reconcile Demo.forbidden Demo.key Demo.fresh)
     = Done (Result_zero, Some (APIError "secrets is forbidden"))
  /\ objects (snd (Reconcile Demo.forbidden Demo.key Demo.fresh)) !! Demo.key
     = Some (Demo.spec, mkStatus None None).
Proof.
  repeat apply conj; try reflexivity.
  exists Demo.createdResp, Demo.created. repeat split. discriminate.
Qed.

(** C1 (amended): for a resource whose status has no identifier, when no
    secret of its name is in the store yet and the API server accepts the
    creation of the secret and the status update, one invocation against a
    registry that accepts the creation makes exactly one Create, carrying
    the resource's name, grant types, response types and scope; stores a
    secret object named after the resource in its namespace with the
    returned client secret under the key [client_secret]; and updates the
    status to the secret's name and the identifier the registry assigned,
    which is not empty when the registry's is not. *)
Theorem Reconcile_registers_new_resource env key w sp st id secret :
  let c := {| json.ClientID := None; json.Name := key.2; json.Secret := None;
              json.GrantTypes := GrantTypes sp;
              json.ResponseTypes := ResponseTypes sp;
              json.Scope := Scope sp |} in
  let req := createRequest c (HydraURL w) in
  let sec := {| SecretName := key.2; SecretNamespace := key.1;
                Data := {[ "client_secret" := secret ]} |} in
  let st' := {| Secret := Some key.2; ClientID := Some id |} in
  objects w !! key = Some (sp, st) ->
  ClientID st = None ->
  apiFault env (calls w) (CallGet key) = None ->
  accepts_creation (transport env (calls w ++ [CallGet key]) req) id secret ->
  secrets w !! key = None ->
  apiFault env (calls w ++ [CallGet key; CallDo req]) (CallCreate sec) = None ->
  apiFault env (calls w ++ [CallGet key; CallDo req; CallCreate sec])
    (CallStatusUpdate (resource key sp st')) = None ->
  exists w',
    Reconcile env key w = (Done (Result_zero, None), w')
    /\ calls w' = (calls w ++ [CallGet key; CallDo req; CallCreate sec;
                               CallStatusUpdate (resource key sp st')])%list
    /\ List.filter isCreate [CallGet key; CallDo req; CallCreate sec;
                             CallStatusUpdate (resource key sp st')]
       = [CallDo req]
    /\ http.Body req = Some (http.Encoded c)
    /\ secrets w' !! key = Some sec
    /\ Data sec !! "client_secret" = Some secret
    /\ objects w' !! key = Some (sp, st')
    /\ ClientID st' <> None
    /\ ClientID st' <> Some "".
Proof.
  intros c req sec st' Ho Hid Hf Hacc Hs Hf1 Hf2.
  assert (Hun : finds_unregistered env st (log (CallGet key) w) (log (CallGet key) w))
    by (unfold finds_unregistered; rewrite Hid; reflexivity).
  rewrite (Reconcile_registers env key w sp st _ Ho Hf Hun).
  assert (Hne : id <> "") by (destruct Hacc as (? & ? & _ & _ & _ & _ & H & _); exact H).
  rewrite (registerOAuth2Client_succeeds env key sp st st (log (CallGet key) w) id secret).
  - cbn [fst snd]. eexists. split; [reflexivity |].
    cbn [calls objects secrets log]. repeat apply conj.
    + rewrite <- app_assoc. reflexivity.
    + reflexivity.
    + reflexivity.
    + apply lookup_insert_eq.
    + apply lookup_singleton_eq.
    + apply lookup_insert_eq.
    + discriminate.
    + unfold st'. cbn [ClientID]. intros [= Heq]. exact (Hne Heq).
  - exact Hacc.
  - exact Ho.
  - exact Hs.
  - cbn [calls log]. rewrite <- app_assoc. exact Hf1.
  - cbn [calls log]. rewrite <- app_assoc. exact Hf2.
Qed.

Lemma Reconcile_registers_new_resource_witness :
  exists w',
    Reconcile Demo.lost Demo.key Demo.fresh = (Done (Result_zero, None), w')
    /\ calls w' =
         [CallGet Demo.key;
          CallDo (createRequest
                    {| json.ClientID := None; json.Name := "demo";
                       json.Secret := None;
                       json.GrantTypes := ["client_credentials"];
                       json.ResponseTypes := []; json.Scope := "read write" |}
                    Demo.base);
          CallCreate {| SecretName := "demo"; SecretNamespace := "default";
                        Data := {[ "client_secret" := "s3cr3t" ]} |};
          CallStatusUpdate
            (resource Demo.key Demo.spec
               {| Secret := Some "demo"; ClientID := Some "abc123" |})]
    /\ secrets w' !! Demo.key
       = Some {| SecretName := "demo"; SecretNamespace := "default";
                 Data := {[ "client_secret" := "s3cr3t" ]} |}
    /\ objects w' !! Demo.key
       = Some (Demo.spec, {| Secret := Some "demo"; ClientID := Some "abc123" |}).
Proof.
  destruct (Reconcile_registers_new_resource Demo.lost Demo.key Demo.fresh Demo.spec
              (mkStatus None None) "abc123" "s3cr3t")
    as (w' & Hr & Hc & _ & _ & Hs & _ & Ho & _ & _);
    try reflexivity.
  - exists Demo.createdResp, Demo.created. repeat split. discriminate.
  - exists w'. repeat split; assumption.
Defined.

(** ** Invocations that change nothing *)

(** With an identifier recorded, an invocation is inert unless its Lookup
    says not found. *)
Lemma Reconcile_inert env key w sp st id :
  objects w !! key = Some (sp, st) ->
  ClientID st = Some id ->
  (forall r, fst (getOAuth2Client env id (log (CallGet key) w))
             <> Done (r, false, None)) ->
  exists res w', inert env key w res w'.
Proof.
  intros Ho Hid Hfound. unfold inert.
  destruct (apiFault env (calls w) (CallGet key)) as [e |] eqn:Hf.
  - rewrite (Reconcile_Get_failed env key w e Hf).
    eexists _, _. repeat apply conj; try reflexivity.
    exists [CallGet key]. split; reflexivity.
  - destruct (getOAuth2Client_frame env id (log (CallGet key) w)) as (Ho1 & Hs1 & Hc1).
    destruct (getOAuth2Client_Done env id (log (CallGet key) w)) as [[[r found] err] Hd].
    destruct (getOAuth2Client env id (log (CallGet key) w)) as [o w1] eqn:Hget.
    cbn [fst snd] in *. subst o.
    assert (Hcase : found = true \/ err <> None).
    { destruct found; [left; reflexivity |].
      destruct err as [e |]; [right; discriminate |].
      exfalso. apply (Hfound r). reflexivity. }
    rewrite (Reconcile_lookup_ends env key w sp st id r found err w1 Ho Hf Hid Hget Hcase).
    eexists _, _. repeat apply conj; try reflexivity; try assumption.
    exists [CallGet key; CallDo (lookupRequest id (HydraURL w))].
    split; [| reflexivity].
    rewrite Hc1. cbn [calls log HydraURL]. rewrite <- app_assoc. reflexivity.
Qed.

(** Inert invocations in a row: the results come one by one and the store
    stays as it was. *)
Lemma ReconcileN_inert env key sp st (P : Result * option error -> Prop) :
  (forall w, objects w !! key = Some (sp, st) ->
     exists res w', inert env key w res w' /\ P res) ->
  forall n w, objects w !! key = Some (sp, st) ->
    exists rs w',
      ReconcileN env n key w = (Done rs, w')
      /\ Forall P rs /\ length rs = n
      /\ objects w' = objects w
      /\ secrets w' = secrets w
      /\ exists added, calls w' = (calls w ++ added)%list
                       /\ forallb isRead added = true.
Proof.
  intros Hstep n. induction n as [| n IH]; intros w Ho.
  - exists [], w. cbn. repeat apply conj; try reflexivity; [constructor |].
    exists []. rewrite app_nil_r. split; reflexivity.
  - destruct (Hstep w Ho) as (res & w1 & (Hr & Ho1 & Hs1 & add1 & Hc1 & Hread1) & HP).
    assert (Ho1' : objects w1 !! key = Some (sp, st)) by (rewrite Ho1; exact Ho).
    destruct (IH w1 Ho1') as (rs & w' & Hrs & HF & Hlen & Ho' & Hs' & add2 & Hc2 & Hread2).
    exists (res :: rs), w'.
    cbn [ReconcileN]. unfold mbind, M_bind at 1. rewrite Hr.
    unfold mbind, M_bind at 1. rewrite Hrs.
    repeat apply conj.
    + reflexivity.
    + constructor; assumption.
    + cbn. rewrite Hlen. reflexivity.
    + rewrite Ho', Ho1. reflexivity.
    + rewrite Hs', Hs1. reflexivity.
    + exists (add1 ++ add2)%list. split.
      * rewrite Hc2, Hc1, app_assoc. reflexivity.
      * rewrite forallb_app, Hread1, Hread2. reflexivity.
Qed.

(** ** A registered resource *)

(** A registered resource whose identifier the Lookup finds: success after
    the read and the Lookup, nothing else. *)
Lemma Reconcile_registered env key w sp st id :
  objects w !! key = Some (sp, st) ->
  ClientID st = Some id ->
  apiFault env (calls w) (CallGet key) = None ->
  (exists r, fst (getOAuth2Client env id (log (CallGet key) w))
             = Done (r, true, None)) ->
  exists w1,
    Reconcile env key w = (Done (Result_zero, None), w1)
    /\ calls w1 = (calls w ++ [CallGet key;
                               CallDo (lookupRequest id (HydraURL w))])%list
    /\ objects w1 = objects w
    /\ secrets w1 = secrets w.
Proof.
  intros Ho Hid Hf [r Hr].
  destruct (getOAuth2Client_frame env id (log (CallGet key) w)) as (Ho1 & Hs1 & Hc1).
  destruct (getOAuth2Client env id (log (CallGet key) w)) as [o w1] eqn:Hget.
  cbn [fst snd] in *. subst o.
  exists w1. repeat apply conj; try assumption.
  - apply (Reconcile_lookup_ends env key w sp st id r true None w1); auto.
  - rewrite Hc1. cbn [calls log HydraURL]. rewrite <- app_assoc. reflexivity.
Qed.

(** Under a registry that finds the identifier at whatever path it is asked
    (the registry of [TestCRUD] answers by status alone), any number of
    invocations in a row return success and change nothing. *)
Theorem Reconcile_registered_is_idempotent env key w sp st id :
  objects w !! key = Some (sp, st) ->
  ClientID st = Some id ->
  (apiFault env (calls w) (CallGet key) = None ->
   (exists r, fst (getOAuth2Client env id (log (CallGet key) w))
              = Done (r, true, None)) ->
   exists w1,
     Reconcile env key w = (Done (Result_zero, None), w1)
     /\ calls w1 = (calls w ++ [CallGet key;
                                CallDo (lookupRequest id (HydraURL w))])%list
     /\ objects w1 = objects w
     /\ secrets w1 = secrets w)
  /\ ((forall h, apiFault env h (CallGet key) = None) ->
      (forall w', exists r, fst (getOAuth2Client env id w') = Done (r, true, None)) ->
      forall n, exists w' added,
        ReconcileN env n key w = (Done (repeat (Result_zero, None) n), w')
        /\ objects w' = objects w
        /\ objects w' !! key = Some (sp, st)
        /\ secrets w' = secrets w
        /\ calls w' = (calls w ++ added)%list
        /\ forallb isRead added = true
        /\ existsb isCreate added = false).
Proof.
  intros Ho Hid. split.
  { intros Hf Hr. apply (Reconcile_registered env key w sp st id); assumption. }
  intros Hload Hfound n.
  destruct (ReconcileN_inert env key sp st (eq (Result_zero, None)))
    with (n := n) (w := w) as (rs & w' & Hrs & HF & Hlen & Ho' & Hs' & added & Hc & Hread).
  - intros w0 Ho0.
    destruct (Reconcile_registered env key w0 sp st id Ho0 Hid (Hload _) (Hfound _))
      as (w1 & Hr & Hc & Ho1 & Hs1).
    exists (Result_zero, None), w1. split; [| reflexivity].
    unfold inert. repeat apply conj; try assumption.
    eexists. split; [exact Hc | reflexivity].
  - exact Ho.
  - exists w', added.
    assert (Hrep : rs = repeat (Result_zero, None) n).
    { rewrite <- Hlen. apply Forall_eq_repeat, HF. }
    rewrite <- Hrep. repeat apply conj; try assumption.
    + rewrite Ho'. exact Ho.
    + apply forallb_isRead_no_create, Hread.
Qed.

Lemma Reconcile_registered_is_idempotent_witness :
  exists w' added,
    ReconcileN Demo.found 3 Demo.key Demo.registered
      = (Done (repeat (Result_zero, None) 3), w')
    /\ objects w' = objects Demo.registered
    /\ objects w' !! Demo.key
       = Some (Demo.spec, {| Secret := Some "demo"; ClientID := Some "old-id" |})
    /\ secrets w' = secrets Demo.registered
    /\ calls w' = (calls Demo.registered ++ added)%list
    /\ forallb isRead added = true
    /\ existsb isCreate added = false.
Proof.
  apply (Reconcile_registered_is_idempotent Demo.found Demo.key Demo.registered Demo.spec
           {| Secret := Some "demo"; ClientID := Some "old-id" |} "old-id").
  - reflexivity.
  - reflexivity.
  - intros h. reflexivity.
  - intros w'. eexists. reflexivity.
Defined.

(** C2: fails on the code when the invocation is repeated.  Against a
    registry that serves the record at [http://hydra/clients/old-id] the
    Lookup of [old-id] finds it, and the first invocation returns success
    and changes nothing but the base endpoint.  The second invocation looks
    the identifier up at [http://hydra/clients/old-id/old-id], is told not
    found, sends a Create there and returns an error. *)
Theorem Reconcile_repeated_looks_elsewhere :
  objects Demo.registered !! Demo.key
    = Some (Demo.spec, {| Secret := Some "demo"; ClientID := Some "old-id" |})
  /\ fst (getOAuth2Client Faulty.byURL "old-id" (log (CallGet Demo.key) Demo.registered))
     = Done (Some Faulty.held, true, None)
  /\ fst (Reconcile Faulty.byURL Demo.key Demo.registered) = Done (Result_zero, None)
  /\ objects (snd (Reconcile Faulty.byURL Demo.key Demo.registered))
     = objects Demo.registered
  /\ calls (snd (Reconcile Faulty.byURL Demo.key Demo.registered))
     = [CallGet Demo.key; CallDo (lookupRequest "old-id" Demo.base)]
  /\ ReconcileN Faulty.byURL 2 Demo.key Demo.registered
     = (Done [(Result_zero, None);
              (Result_zero,
               Some (Errorf "POST http://hydra/clients/old-id/old-id http request returned unexpected status code: 404 Not Found"))],
        snd (ReconcileN Faulty.byURL 2 Demo.key Demo.registered))
  /\ calls (snd (ReconcileN Faulty.byURL 2 Demo.key Demo.registered))
     = [CallGet Demo.key;
        CallDo (lookupRequest "old-id" Demo.base);
        CallGet Demo.key;
        CallDo (lookupRequest "old-id" (url.mkURL "http" "hydra" "/clients/old-id"));
        CallDo (createRequest
                  (ToOAuth2ClientJSON
                     (resource Demo.key Demo.spec
                        {| Secret := Some "demo"; ClientID := Some "old-id" |}))
                  (url.mkURL "http" "hydra" "/clients/old-id/old-id"))]
  /\ http.URL (lookupRequest "old-id" (url.mkURL "http" "hydra" "/clients/old-id"))
     = "http://hydra/clients/old-id/old-id"
  /\ existsb isCreate (calls (snd (ReconcileN Faulty.byURL 2 Demo.key Demo.registered)))
     = true.
Proof. vm_compute. repeat split. Qed.

(** ** Re-registration *)

(** Whatever happens next, a registration first sends its Create. *)
Lemma registerOAuth2Client_sends_create env client w :
  exists added,
    calls (snd (registerOAuth2Client env client w)) =
    (calls w ++ CallDo (createRequest (ToOAuth2ClientJSON client) (HydraURL w))
             :: added)%list.
Proof.
  unfold registerOAuth2Client. run. rewrite postOAuth2Client_eq.
  destruct (createOutcome _ _) as [created [err |]]; cbn.
  { exists []. reflexivity. }
  destruct created as [created |]; cbn; [| exists []; reflexivity].
  destruct (json.Secret created) as [secret |]; cbn;
    [| exists []; reflexivity].
  unfold Create. cbn.
  destruct (apiFault env _ (CallCreate _)); cbn.
  { eexists. rewrite <- app_assoc. reflexivity. }
  destruct (secrets w !! _); cbn.
  { eexists. rewrite <- app_assoc. reflexivity. }
  unfold StatusUpdate. cbn.
  destruct (apiFault env _ (CallStatusUpdate _)); cbn.
  { eexists. rewrite <- !app_assoc. reflexivity. }
  destruct (objects w !! _) as [[sp0 st0] |]; cbn;
    eexists; rewrite <- !app_assoc; reflexivity.
Qed.

(** C3 as written fails: the status carries [old-id], the Lookup of it says
    not found, and the invocation sends a Create and stores the identifier
    the registry hands out in place of the old one. *)
Lemma Reconcile_reassigns_clientID :
  objects Demo.registered !! Demo.key
    = Some (Demo.spec, {| Secret := Some "demo"; ClientID := Some "old-id" |})
  /\ fst (getOAuth2Client Demo.lost "old-id" (log (CallGet Demo.key) Demo.registered))
     = Done (None, false, None)
  /\ fst (Reconcile Demo.lost Demo.key Demo.registered) = Done (Result_zero, None)
  /\ existsb isCreate (calls (snd (Reconcile Demo.lost Demo.key Demo.registered)))
     = true
  /\ objects (snd (Reconcile Demo.lost Demo.key Demo.registered)) !! Demo.key
     = Some (Demo.spec, {| Secret := Some "demo"; ClientID := Some "abc123" |}).
Proof. vm_compute. repeat split. Qed.

(** With an identifier recorded, an invocation whose Lookup, if it makes
    one, does not say not found is inert. *)
Lemma Reconcile_inert_unless_not_found env key w sp st id :
  objects w !! key = Some (sp, st) ->
  ClientID st = Some id ->
  (apiFault env (calls w) (CallGet key) = None ->
   forall r, fst (getOAuth2Client env id (log (CallGet key) w))
             <> Done (r, false, None)) ->
  exists res w', inert env key w res w'.
Proof.
  intros Ho Hid Hfound.
  destruct (apiFault env (calls w) (CallGet key)) as [e |] eqn:Hf.
  - unfold inert. rewrite (Reconcile_Get_failed env key w e Hf).
    eexists _, _. repeat apply conj; try reflexivity.
    exists [CallGet key]. split; reflexivity.
  - apply (Reconcile_inert env key w sp st id Ho Hid (Hfound eq_refl)).
Qed.

(** C3 (amended): for a resource whose status carries an identifier, as long
    as none of the Lookups a sequence of invocations makes says not found,
    no invocation of the sequence sends a Create or changes what is stored,
    so the identifier is neither cleared nor replaced; an invocation whose
    Lookup says not found does send a Create, and when the registry and the
    API server accept it the stored identifier becomes the one the registry
    returned. *)
Theorem Reconcile_keeps_clientID_unless_not_found env key w sp st id :
  objects w !! key = Some (sp, st) ->
  ClientID st = Some id ->
  (forall n,
     no_lookup_says_not_found env key id n w ->
     exists rs w' added,
       ReconcileN env n key w = (Done rs, w')
       /\ objects w' = objects w
       /\ objects w' !! key = Some (sp, st)
       /\ calls w' = (calls w ++ added)%list
       /\ existsb isCreate added = false)
  /\ (forall r w1,
        apiFault env (calls w) (CallGet key) = None ->
        getOAuth2Client env id (log (CallGet key) w) = (Done (r, false, None), w1) ->
        let req := createRequest (ToOAuth2ClientJSON (resource key sp st))
                     (HydraURL w1) in
        (exists added,
           calls (snd (Reconcile env key w)) = (calls w1 ++ CallDo req :: added)%list)
        /\ forall id' secret,
             let sec := credentialSecret key secret in
             let st' := {| Secret := Some key.2; ClientID := Some id' |} in
             accepts_creation (transport env (calls w1) req) id' secret ->
             secrets w !! key = None ->
             apiFault env (calls w1 ++ [CallDo req]) (CallCreate sec) = None ->
             apiFault env (calls w1 ++ [CallDo req; CallCreate sec])
               (CallStatusUpdate (resource key sp st')) = None ->
             fst (Reconcile env key w) = Done (Result_zero, None)
             /\ objects (snd (Reconcile env key w)) !! key = Some (sp, st')).
Proof.
  intros Ho Hid. split.
  - intros n. revert w Ho. induction n as [| n IH]; intros w Ho Hseq.
    + exists [], w, []. cbn. rewrite app_nil_r. repeat split. exact Ho.
    + destruct Hseq as [Hfound Hrest].
      destruct (Reconcile_inert_unless_not_found env key w sp st id Ho Hid Hfound)
        as (res & w1 & Hr & Ho1 & _ & add1 & Hc1 & Hread1).
      rewrite Hr in Hrest. cbn [snd] in Hrest.
      assert (Ho1' : objects w1 !! key = Some (sp, st)) by (rewrite Ho1; exact Ho).
      destruct (IH w1 Ho1' Hrest) as (rs & w' & add2 & Hrs & Ho' & _ & Hc2 & Hno2).
      exists (res :: rs), w', (add1 ++ add2)%list.
      cbn [ReconcileN]. unfold mbind, M_bind at 1. rewrite Hr.
      unfold mbind, M_bind at 1. rewrite Hrs.
      repeat apply conj.
      * reflexivity.
      * rewrite Ho', Ho1. reflexivity.
      * rewrite Ho', Ho1. exact Ho.
      * rewrite Hc2, Hc1, app_assoc. reflexivity.
      * rewrite existsb_app, (forallb_isRead_no_create _ Hread1), Hno2. reflexivity.
  - intros r w1 Hf Hget req.
    assert (Hun : finds_unregistered env st (log (CallGet key) w) w1)
      by (unfold finds_unregistered; rewrite Hid; eauto).
    destruct (finds_unregistered_frame env st _ w1 Hun) as [Ho1 Hs1].
    cbn [objects secrets log] in Ho1, Hs1.
    rewrite (Reconcile_registers env key w sp st w1 Ho Hf Hun). cbn [fst snd].
    split; [apply registerOAuth2Client_sends_create |].
    intros id' secret. cbn zeta. intros Hacc Hs Hf1 Hf2.
    rewrite (registerOAuth2Client_succeeds env key sp st st w1 id' secret);
      try assumption; [| rewrite Ho1; exact Ho | rewrite Hs1; exact Hs].
    cbn [fst snd objects]. split; [reflexivity | apply lookup_insert_eq].
Qed.

Lemma Reconcile_keeps_clientID_unless_not_found_witness :
  exists rs w' added,
    ReconcileN Faulty.byURL 1 Demo.key Demo.registered = (Done rs, w')
    /\ objects w' = objects Demo.registered
    /\ objects w' !! Demo.key
       = Some (Demo.spec, {| Secret := Some "demo"; ClientID := Some "old-id" |})
    /\ calls w' = (calls Demo.registered ++ added)%list
    /\ existsb isCreate added = false.
Proof.
  apply (Reconcile_keeps_clientID_unless_not_found Faulty.byURL Demo.key Demo.registered
           Demo.spec {| Secret := Some "demo"; ClientID := Some "old-id" |} "old-id").
  - reflexivity.
  - reflexivity.
  - split; [| exact I]. intros _ r. cbn. discriminate.
Defined.

(** * Further properties of the controller *)

(** ** Paths and URLs of the requests *)

Lemma append_assoc (a b c : string) : (a +:+ b) +:+ c = a +:+ b +:+ c.
Proof.
  induction a as [| x a IH]; [reflexivity |].
  change (String x ((a +:+ b) +:+ c) = String x (a +:+ b +:+ c)).
  f_equal. exact IH.
Qed.

Lemma append_nil_l (s : string) : "" +:+ s = s.
Proof. reflexivity. Qed.

Lemma append_cons c (a s : string) : String c a +:+ s = String c (a +:+ s).
Proof. reflexivity. Qed.

Lemma split_nonempty s : path.split s <> [].
Proof.
  destruct s as [| c s]; cbn; [discriminate |].
  destruct (Ascii.eqb c path.slash); [discriminate |].
  destruct (path.split s); discriminate.
Qed.

Lemma split_app a b :
  path.split (a +:+ String path.slash b) = (path.split a ++ path.split b)%list.
Proof.
  induction a as [| c a IH].
  - rewrite append_nil_l. cbn [path.split]. rewrite Ascii.eqb_refl. reflexivity.
  - rewrite append_cons. cbn [path.split]. rewrite IH. destruct (Ascii.eqb c path.slash); [reflexivity |].
    destruct (path.split a) as [| e es] eqn:Hs; [| reflexivity].
    exfalso. exact (split_nonempty a Hs).
Qed.

Lemma split_no_slash e :
  forallb (fun c => negb (Ascii.eqb c path.slash)) (list_ascii_of_string e) = true ->
  path.split e = [e].
Proof.
  induction e as [| c e IH]; cbn; [reflexivity |].
  intros H. apply andb_true_iff in H as [Hc He].
  apply negb_true_iff in Hc. rewrite Hc, (IH He). reflexivity.
Qed.

Lemma plain_split e : plain e = true -> path.split e = [e].
Proof.
  unfold plain. intros H. apply andb_true_iff in H as [_ H].
  apply split_no_slash, H.
Qed.

Lemma plain_step is_rooted kept e :
  plain e = true -> path.step is_rooted kept e = e :: kept.
Proof.
  unfold plain, path.step. intros H.
  apply andb_true_iff in H as [H _].
  apply andb_true_iff in H as [H H2].
  apply andb_true_iff in H as [H0 H1].
  apply negb_true_iff in H0, H1, H2. rewrite H0, H1, H2. reflexivity.
Qed.

Lemma concat_with_snoc sep l e :
  l <> [] -> path.concat_with sep (l ++ [e]) = path.concat_with sep l +:+ sep +:+ e.
Proof.
  induction l as [| x l IH]; [congruence |]. intros _.
  destruct l as [| y l].
  - reflexivity.
  - change (path.concat_with sep ((x :: y :: l) ++ [e]))
      with (x +:+ sep +:+ path.concat_with sep ((y :: l) ++ [e])).
    rewrite IH by discriminate.
    change (path.concat_with sep (x :: y :: l))
      with (x +:+ sep +:+ path.concat_with sep (y :: l)).
    rewrite !append_assoc. reflexivity.
Qed.

Lemma rooted_app p q : path.rooted p = true -> path.rooted (p +:+ q) = true.
Proof. destruct p; [discriminate | exact (fun H => H)]. Qed.

Lemma rooted_not_empty p : path.rooted p = true -> String.eqb p "" = false.
Proof. destruct p; [discriminate | reflexivity]. Qed.

(** On a clean base, cleaning keeps a plain element that is appended and
    drops an empty one. *)
Lemma Clean_base_element p e :
  cleanBase p ->
  (plain e = true -> path.Clean (p +:+ "/" +:+ e) = p +:+ "/" +:+ e)
  /\ path.Clean (p +:+ "/" +:+ "") = p.
Proof.
  intros (Hclean & Hroot & Hne).
  assert (Hkept : rev (fold_left (path.step true) (path.split p) []) <> []
                  /\ "/" +:+ path.concat_with "/"
                               (rev (fold_left (path.step true) (path.split p) [])) = p).
  { revert Hclean. unfold path.Clean.
    rewrite (rooted_not_empty p Hroot), Hroot. cbn zeta.
    intros Hc. split; [| exact Hc].
    intros Hnil. rewrite Hnil in Hc. apply Hne. rewrite <- Hc. reflexivity. }
  destruct Hkept as [Hnonnil Hp].
  assert (Hq : forall e', String.eqb (p +:+ "/" +:+ e') "" = false).
  { intros e'. apply rooted_not_empty, rooted_app, Hroot. }
  split.
  - intros He. unfold path.Clean.
    rewrite Hq, (rooted_app p _ Hroot). cbn zeta.
    change ("/" +:+ e) with (String path.slash e).
    rewrite split_app, (plain_split e He), fold_left_app.
    cbn [fold_left]. rewrite (plain_step _ _ _ He). cbn [rev].
    rewrite concat_with_snoc by exact Hnonnil.
    rewrite <- append_assoc, Hp. reflexivity.
  - unfold path.Clean.
    rewrite Hq, (rooted_app p _ Hroot). cbn zeta.
    change ("/" +:+ "") with (String path.slash "").
    rewrite split_app, fold_left_app. cbn. exact Hp.
Qed.

Lemma cleanBase_element p e : cleanBase p -> plain e = true -> cleanBase (p +:+ "/" +:+ e).
Proof.
  intros Hp He. destruct (Clean_base_element p e Hp) as [Hc _].
  destruct Hp as (_ & Hroot & _).
  repeat split.
  - exact (Hc He).
  - apply rooted_app, Hroot.
  - destruct p as [| c p]; [discriminate |]. rewrite append_cons.
    destruct p; discriminate.
Qed.

Lemma Join_base_element p e :
  cleanBase p -> plain e = true -> path.Join [p; e] = p +:+ "/" +:+ e.
Proof.
  intros Hp He. destruct (Clean_base_element p e Hp) as [Hc _].
  destruct Hp as (_ & Hroot & _).
  cbn [path.Join]. rewrite (rooted_not_empty p Hroot).
  exact (Hc He).
Qed.

Lemma Join_base_empty p : cleanBase p -> path.Join [p; ""] = p.
Proof.
  intros Hp. destruct (Clean_base_element p "" Hp) as [_ Hc].
  destruct Hp as (_ & Hroot & _).
  cbn [path.Join]. rewrite (rooted_not_empty p Hroot).
  exact Hc.
Qed.

Lemma append_nil_r (s : string) : s +:+ "" = s.
Proof.
  induction s as [| c s IH]; [reflexivity |].
  rewrite append_cons, IH. reflexivity.
Qed.

Lemma escape_app a b mode :
  url.escape (a +:+ b) mode = url.escape a mode +:+ url.escape b mode.
Proof.
  induction a as [| c a IH]; [reflexivity |].
  rewrite append_cons. cbn [url.escape]. rewrite IH.
  destruct (url.shouldEscape c mode); reflexivity.
Qed.

Lemma escape_slash s :
  url.escape (String path.slash s) url.encodePath
  = String path.slash (url.escape s url.encodePath).
Proof. reflexivity. Qed.

(** The rendering of a URL whose path is rooted: nothing is put between the
    front and the escaped path. *)
Lemma url_String_rooted u p :
  path.rooted p = true ->
  url.String (url.set_Path u p) = front u +:+ url.escape p url.encodePath.
Proof.
  intros Hroot. destruct p as [| c p]; [discriminate |].
  apply Ascii.eqb_eq in Hroot. subst c.
  unfold url.String, url.EscapedPath, url.set_Path, front.
  cbn [url.Scheme url.Host url.Path].
  change (String.eqb (String path.slash p) "*") with false. cbn iota.
  rewrite escape_slash.
  change (String.eqb (String path.slash (url.escape p url.encodePath)) "") with false.
  change (String.eqb (String path.slash p) "") with false.
  change (path.rooted (String path.slash (url.escape p url.encodePath))) with true.
  change (url.colonInFirstSegment (String path.slash (url.escape p url.encodePath)))
    with false.
  cbn [negb andb orb]. rewrite andb_false_r, orb_true_r.
  rewrite !append_nil_r, append_nil_l. reflexivity.
Qed.

Lemma url_String_element u p e :
  path.rooted p = true ->
  url.String (url.set_Path u (p +:+ "/" +:+ e))
  = url.String (url.set_Path u p) +:+ "/" +:+ url.escape e url.encodePath.
Proof.
  intros Hroot.
  rewrite (url_String_rooted u _ (rooted_app p _ Hroot)), (url_String_rooted u p Hroot).
  rewrite escape_app. change ("/" +:+ e) with (String path.slash e).
  rewrite escape_slash, append_assoc. reflexivity.
Qed.

Lemma url_set_Path_same u : url.set_Path u (url.Path u) = u.
Proof. destruct u. reflexivity. Qed.

Lemma newRequest_URL method relativePath body w req :
  fst (newRequest method relativePath body w) = Done (Some req, None) ->
  http.URL req = url.String (joined relativePath (HydraURL w)).
Proof.
  unfold newRequest, mbind, M_bind, mret, M_ret, modify_HydraURL, read_HydraURL,
    http.NewRequest.
  cbn beta iota zeta. cbn [HydraURL set_HydraURL].
  fold (joined relativePath (HydraURL w)).
  destruct (http.validMethod _); cbn [fst]; [| discriminate].
  intros H. injection H as <-.
  destruct body; reflexivity.
Qed.

(** X1: on a base path that is clean, rooted and not the root, a request for
    a plain relative path goes to the base URL followed by a slash and that
    path, escaped as a path is, and a request for the empty relative path
    goes to the base URL itself. *)
Theorem newRequest_URL_on_clean_base method relativePath body w req :
  cleanBase (url.Path (HydraURL w)) ->
  fst (newRequest method relativePath body w) = Done (Some req, None) ->
  (plain relativePath = true ->
   http.URL req
   = url.String (HydraURL w) +:+ "/" +:+ url.escape relativePath url.encodePath)
  /\ (relativePath = "" -> http.URL req = url.String (HydraURL w)).
Proof.
  intros Hbase Hreq. rewrite (newRequest_URL _ _ _ _ _ Hreq). unfold joined.
  split.
  - intros Hrel. rewrite (Join_base_element _ _ Hbase Hrel).
    destruct Hbase as (_ & Hroot & _).
    rewrite (url_String_element _ _ _ Hroot), url_set_Path_same. reflexivity.
  - intros ->. rewrite (Join_base_empty _ Hbase), url_set_Path_same. reflexivity.
Qed.

Lemma newRequest_URL_on_clean_base_witness :
  http.URL (lookupRequest "a b?c" Demo.base) = "http://hydra/clients/a%20b%3Fc".
Proof.
  apply (newRequest_URL_on_clean_base http.MethodGet "a b?c" None Demo.fresh
           (lookupRequest "a b?c" Demo.base)).
  - repeat split. discriminate.
  - reflexivity.
  - reflexivity.
Defined.

(** ** Every way through [registerOAuth2Client] and [Reconcile] *)

Lemma createOutcome_ok req answer created :
  createOutcome req answer = (created, None) ->
  exists resp,
    answer = inr resp
    /\ http.StatusCode resp = 201
    /\ Decode (http.RespBody resp) = (created, None).
Proof.
  unfold createOutcome. destruct answer as [e | resp]; [discriminate |].
  destruct (Decode (http.RespBody resp)) as [v [e |]] eqn:Hdec; [discriminate |].
  destruct (Z.eqb (http.StatusCode resp) 201) eqn:H201.
  - intros [= <-]. apply Z.eqb_eq in H201.
    exists resp. repeat split; assumption.
  - destruct (Z.eqb (http.StatusCode resp) 409); discriminate.
Qed.

Lemma no_secret_lacks_secret req answer created :
  createOutcome req answer = (created, None) ->
  created ≫= json.Secret = None ->
  lacks_secret answer.
Proof.
  intros Hout Hsecret.
  destruct (createOutcome_ok req answer created Hout) as (resp & -> & H201 & Hdec).
  exists resp. repeat split; [exact H201 |].
  destruct (http.RespBody resp) as [msg | | c]; cbn in Hdec.
  - discriminate.
  - left. reflexivity.
  - right. injection Hdec as <-. eauto.
Qed.

Lemma lacks_secret_createOutcome req answer :
  lacks_secret answer ->
  exists created,
    createOutcome req answer = (created, None) /\ created ≫= json.Secret = None.
Proof.
  intros (resp & -> & H201 & [Hnull | (c & Hobj & Hsecret)]);
    unfold createOutcome; rewrite H201.
  - rewrite Hnull. exists None. split; reflexivity.
  - rewrite Hobj. exists (Some c). split; [reflexivity | exact Hsecret].
Qed.

(** What a registration does, whichever way it ends: it sends its Create
    first and then at most the creation of the secret and the status
    update; it stores nothing under another name; and it panics only on an
    answer without secret. *)
Lemma registerOAuth2Client_shape env client w :
  let key : NamespacedName := (Namespace client, Name client) in
  let req := createRequest (ToOAuth2ClientJSON client) (HydraURL w) in
  let res := registerOAuth2Client env client w in
  (exists rest,
     calls (snd res) = (calls w ++ CallDo req :: rest)%list
     /\ forallb (follows_create key) rest = true
     /\ (length rest <= 2)%nat)
  /\ (forall k, k <> key ->
        objects (snd res) !! k = objects w !! k
        /\ secrets (snd res) !! k = secrets w !! k)
  /\ (forall msg, fst res = Panic msg -> lacks_secret (transport env (calls w) req)).
Proof.
  intros key req res. subst res.
  unfold registerOAuth2Client. run. rewrite postOAuth2Client_eq. fold req.
  destruct (createOutcome req _) as [created [err |]] eqn:Hout; cbn.
  { repeat apply conj; [exists []; repeat split; cbn; lia | auto | discriminate]. }
  destruct created as [created |]; cbn;
    [| repeat apply conj;
       [exists []; repeat split; cbn; lia | auto
       | intros _ _; exact (no_secret_lacks_secret _ _ _ Hout eq_refl)]].
  destruct (json.Secret created) as [secret |] eqn:Hsecret; cbn;
    [| repeat apply conj;
       [exists []; repeat split; cbn; lia | auto
       | intros _ _; refine (no_secret_lacks_secret _ _ _ Hout _);
         cbn; exact Hsecret]].
  unfold Create. cbn.
  destruct (apiFault env _ (CallCreate _)); cbn.
  { repeat apply conj; [| auto | discriminate].
    eexists [_]. rewrite <- app_assoc. repeat split; [| cbn; lia].
    cbn. unfold follows_create. cbn. rewrite bool_decide_eq_true_2; reflexivity. }
  destruct (secrets w !! _) eqn:Hsec; cbn.
  { repeat apply conj; [| auto | discriminate].
    eexists [_]. rewrite <- app_assoc. repeat split; [| cbn; lia].
    cbn. unfold follows_create. cbn. rewrite bool_decide_eq_true_2; reflexivity. }
  unfold StatusUpdate. cbn.
  destruct (apiFault env _ (CallStatusUpdate _)); cbn.
  { repeat apply conj; [| | discriminate].
    - eexists [_; _]. rewrite <- !app_assoc. repeat split; [| cbn; lia].
      cbn. unfold follows_create. cbn. rewrite !bool_decide_eq_true_2; reflexivity.
    - intros k Hk. split; [reflexivity |]. apply lookup_insert_ne; intros Heq; apply Hk; rewrite <- Heq; reflexivity. }
  destruct (objects w !! _) as [[sp0 st0] |]; cbn.
  - repeat apply conj; [| | discriminate].
    + eexists [_; _]. rewrite <- !app_assoc. repeat split; [| cbn; lia].
      cbn. unfold follows_create. cbn. rewrite !bool_decide_eq_true_2; reflexivity.
    + intros k Hk. split; apply lookup_insert_ne; intros Heq; apply Hk; rewrite <- Heq; reflexivity.
  - repeat apply conj; [| | discriminate].
    + eexists [_; _]. rewrite <- !app_assoc. repeat split; [| cbn; lia].
      cbn. unfold follows_create. cbn. rewrite !bool_decide_eq_true_2; reflexivity.
    + intros k Hk. split; [reflexivity |]. apply lookup_insert_ne; intros Heq; apply Hk; rewrite <- Heq; reflexivity.
Qed.

(** The three ways through [Reconcile]: the read fails or finds nothing; the
    Lookup of the recorded identifier ends the invocation; the resource is
    found unregistered and registered. *)
Lemma Reconcile_cases env key w :
  (exists err, Reconcile env key w = (Done (Result_zero, err), log (CallGet key) w))
  \/ (exists sp st id err,
        objects w !! key = Some (sp, st)
        /\ ClientID st = Some id
        /\ Reconcile env key w =
           (Done (Result_zero, err),
            log (CallDo (lookupRequest id (HydraURL w)))
              (set_HydraURL (joined id (HydraURL w)) (log (CallGet key) w))))
  \/ (exists sp st w1 looked,
        objects w !! key = Some (sp, st)
        /\ apiFault env (calls w) (CallGet key) = None
        /\ finds_unregistered env st (log (CallGet key) w) w1
        /\ calls w1 = (calls w ++ CallGet key :: looked)%list
        /\ (looked = [] /\ ClientID st = None /\ HydraURL w1 = HydraURL w
            \/ exists id, looked = [CallDo (lookupRequest id (HydraURL w))])
        /\ Reconcile env key w =
           (match fst (registerOAuth2Client env (resource key sp st) w1) with
            | Done err => Done (Result_zero, err)
            | Panic msg => Panic msg
            end,
            snd (registerOAuth2Client env (resource key sp st) w1))).
Proof.
  destruct (apiFault env (calls w) (CallGet key)) as [e |] eqn:Hf.
  { left. rewrite (Reconcile_Get_failed env key w e Hf). eauto. }
  destruct (objects w !! key) as [[sp st] |] eqn:Ho.
  2: { left. rewrite (Reconcile_absent env key w Ho Hf). eauto. }
  right.
  destruct (ClientID st) as [id |] eqn:Hid.
  - pose proof (getOAuth2Client_eq env id (log (CallGet key) w)) as Hget.
    cbn zeta in Hget. cbn [HydraURL log] in Hget.
    destruct (lookupOutcome _ _) as [[r found] err].
    assert (Hcase : (found = true \/ err <> None) \/ (found = false /\ err = None)).
    { destruct found; [left; left; reflexivity |].
      destruct err; [left; right; discriminate | right; split; reflexivity]. }
    destruct Hcase as [Hends | [-> ->]].
    + left. exists sp, st, id, err. repeat split; try assumption.
      exact (Reconcile_lookup_ends env key w sp st id r found err _ Ho Hf Hid Hget Hends).
    + right.
      assert (Hun : finds_unregistered env st (log (CallGet key) w)
                      (log (CallDo (lookupRequest id (HydraURL w)))
                         (set_HydraURL (joined id (HydraURL w)) (log (CallGet key) w))))
        by (unfold finds_unregistered; rewrite Hid; eauto).
      exists sp, st,
        (log (CallDo (lookupRequest id (HydraURL w)))
           (set_HydraURL (joined id (HydraURL w)) (log (CallGet key) w))),
        [CallDo (lookupRequest id (HydraURL w))].
      repeat apply conj; [reflexivity | reflexivity | exact Hun | | |].
      * cbn [calls log set_HydraURL]. rewrite <- app_assoc. reflexivity.
      * right. eauto.
      * exact (Reconcile_registers env key w sp st _ Ho Hf Hun).
  - right.
    assert (Hun : finds_unregistered env st (log (CallGet key) w) (log (CallGet key) w))
      by (unfold finds_unregistered; rewrite Hid; reflexivity).
    exists sp, st, (log (CallGet key) w), [].
    repeat apply conj; [reflexivity | reflexivity | exact Hun | | |].
    + reflexivity.
    + left. repeat split. exact Hid.
    + exact (Reconcile_registers env key w sp st _ Ho Hf Hun).
Qed.

(** ** Errors on the way *)

(** X2: an error of the read other than not-found is returned as it is; the
    read is the only call made and nothing is stored or sent. *)
Theorem Reconcile_returns_Get_error env key w err :
  apiFault env (calls w) (CallGet key) = Some err ->
  IsNotFound err = false ->
  exists w',
    Reconcile env key w = (Done (Result_zero, Some err), w')
    /\ calls w' = (calls w ++ [CallGet key])%list
    /\ objects w' = objects w
    /\ secrets w' = secrets w
    /\ HydraURL w' = HydraURL w.
Proof.
  intros Hf Hnf. rewrite (Reconcile_Get_failed env key w err Hf), Hnf.
  eexists. repeat split.
Qed.

Lemma Reconcile_returns_Get_error_witness :
  exists w',
    Reconcile Faulty.unreachable Demo.key Demo.fresh
      = (Done (Result_zero, Some (APIError "connection refused")), w')
    /\ calls w' = [CallGet Demo.key]
    /\ objects w' = objects Demo.fresh
    /\ secrets w' = secrets Demo.fresh
    /\ HydraURL w' = HydraURL Demo.fresh.
Proof.
  apply (Reconcile_returns_Get_error Faulty.unreachable Demo.key Demo.fresh
           (APIError "connection refused"));
    reflexivity.
Defined.

(** X3: when the status carries an identifier and its Lookup returns an
    error, the invocation returns that error after the read and the one
    GET: no Create is sent although nothing was found, and nothing is
    stored. *)
Theorem Reconcile_returns_Lookup_error env key w sp st id r found err :
  objects w !! key = Some (sp, st) ->
  ClientID st = Some id ->
  apiFault env (calls w) (CallGet key) = None ->
  fst (getOAuth2Client env id (log (CallGet key) w)) = Done (r, found, Some err) ->
  exists w',
    Reconcile env key w = (Done (Result_zero, Some err), w')
    /\ calls w' = (calls w ++ [CallGet key; CallDo (lookupRequest id (HydraURL w))])%list
    /\ objects w' = objects w
    /\ secrets w' = secrets w.
Proof.
  intros Ho Hid Hf Hget.
  destruct (getOAuth2Client_frame env id (log (CallGet key) w)) as (Ho1 & Hs1 & Hc1).
  destruct (getOAuth2Client env id (log (CallGet key) w)) as [o w1] eqn:Hrun.
  cbn [fst snd] in *. subst o.
  exists w1. repeat apply conj; try assumption.
  - apply (Reconcile_lookup_ends env key w sp st id r found (Some err) w1);
      try assumption.
    right. discriminate.
  - rewrite Hc1. cbn [calls log HydraURL]. rewrite <- app_assoc. reflexivity.
Qed.

Lemma Reconcile_returns_Lookup_error_witness :
  exists w',
    Reconcile Faulty.offline Demo.key Demo.registered
      = (Done (Result_zero, Some (TransportError "dial tcp: connection refused")), w')
    /\ calls w' = (calls Demo.registered
                   ++ [CallGet Demo.key; CallDo (lookupRequest "old-id" Demo.base)])%list
    /\ objects w' = objects Demo.registered
    /\ secrets w' = secrets Demo.registered.
Proof.
  apply (Reconcile_returns_Lookup_error Faulty.offline Demo.key Demo.registered
           Demo.spec {| Secret := Some "demo"; ClientID := Some "old-id" |}
           "old-id" None false);
    reflexivity.
Defined.

(** ** A created record without secret or without identifier *)

(** X4: when the resource is found unregistered and the registry answers the
    Create with a 201 whose body is [null] or a record without secret, the
    invocation panics on [*created.Secret] right after the POST: no secret is
    created, no status is written. *)
Theorem Reconcile_panics_without_secret env key w sp st w1 :
  let req := createRequest (ToOAuth2ClientJSON (resource key sp st)) (HydraURL w1) in
  objects w !! key = Some (sp, st) ->
  apiFault env (calls w) (CallGet key) = None ->
  finds_unregistered env st (log (CallGet key) w) w1 ->
  lacks_secret (transport env (calls w1) req) ->
  exists w',
    Reconcile env key w = (Panic "nil pointer dereference", w')
    /\ calls w' = (calls w1 ++ [CallDo req])%list
    /\ objects w' = objects w
    /\ secrets w' = secrets w.
Proof.
  intros req Ho Hf Hun Hlacks.
  rewrite (Reconcile_registers env key w sp st w1 Ho Hf Hun).
  destruct (finds_unregistered_frame env st _ w1 Hun) as [Ho1 Hs1].
  destruct (lacks_secret_createOutcome req _ Hlacks) as (created & Hout & Hsecret).
  unfold registerOAuth2Client. run. rewrite postOAuth2Client_eq.
  fold req. rewrite Hout. cbn beta iota zeta.
  change (option_bind _ _ json.Secret created) with (created ≫= json.Secret).
  rewrite Hsecret. cbn.
  eexists. repeat split; assumption.
Qed.

Lemma Reconcile_panics_without_secret_witness :
  exists w',
    Reconcile Faulty.secretless Demo.key Demo.fresh
      = (Panic "nil pointer dereference", w')
    /\ calls w' = (calls (log (CallGet Demo.key) Demo.fresh)
                   ++ [CallDo (createRequest Demo.desired Demo.base)])%list
    /\ objects w' = objects Demo.fresh
    /\ secrets w' = secrets Demo.fresh.
Proof.
  apply (Reconcile_panics_without_secret Faulty.secretless Demo.key Demo.fresh
           Demo.spec (mkStatus None None) (log (CallGet Demo.key) Demo.fresh)).
  - reflexivity.
  - reflexivity.
  - reflexivity.
  - exists Faulty.noSecret. repeat split. right. eexists. split; reflexivity.
Defined.

(** X5: an invocation panics in no other case: when it does, the resource
    was loaded and found unregistered, and the registry's answer to the
    Create was a 201 without secret. *)
Theorem Reconcile_panics_only_without_secret env key w msg :
  fst (Reconcile env key w) = Panic msg ->
  exists sp st w1,
    objects w !! key = Some (sp, st)
    /\ finds_unregistered env st (log (CallGet key) w) w1
    /\ lacks_secret
         (transport env (calls w1)
            (createRequest (ToOAuth2ClientJSON (resource key sp st)) (HydraURL w1))).
Proof.
  intros Hpanic.
  destruct (Reconcile_cases env key w)
    as [[err Hr] | [(sp & st & id & err & _ & _ & Hr)
                   | (sp & st & w1 & looked & Ho & _ & Hun & _ & _ & Hr)]];
    rewrite Hr in Hpanic; cbn [fst] in Hpanic; try discriminate.
  exists sp, st, w1. repeat split; try assumption.
  destruct (registerOAuth2Client_shape env (resource key sp st) w1) as (_ & _ & Hp).
  destruct (fst (registerOAuth2Client env (resource key sp st) w1)) as [e | m] eqn:Hreg;
    [discriminate |].
  exact (Hp m eq_refl).
Qed.

Lemma Reconcile_panics_only_without_secret_witness :
  exists sp st w1,
    objects Demo.fresh !! Demo.key = Some (sp, st)
    /\ finds_unregistered Faulty.secretless st (log (CallGet Demo.key) Demo.fresh) w1
    /\ lacks_secret
         (transport Faulty.secretless (calls w1)
            (createRequest (ToOAuth2ClientJSON (resource Demo.key sp st)) (HydraURL w1))).
Proof.
  apply (Reconcile_panics_only_without_secret Faulty.secretless Demo.key Demo.fresh
           "nil pointer dereference").
  reflexivity.
Defined.

(** The Create is answered with a record that has a secret, and the API
    server takes the secret: what the status update is called with decides
    the rest. *)
Lemma registerOAuth2Client_updates_status env key sp st st0 w resp created secret :
  let client := resource key sp st in
  let req := createRequest (ToOAuth2ClientJSON client) (HydraURL w) in
  let sec := credentialSecret key secret in
  let client' := resource key sp {| Secret := Some key.2;
                                    ClientID := json.ClientID created |} in
  let w2 := set_secrets (<[key := sec]> (secrets w))
              (log (CallCreate sec)
                 (log (CallDo req) (set_HydraURL (joined "" (HydraURL w)) w))) in
  transport env (calls w) req = inr resp ->
  http.StatusCode resp = 201 ->
  http.RespBody resp = http.Object created ->
  json.Secret created = Some secret ->
  objects w !! key = Some (sp, st0) ->
  secrets w !! key = None ->
  apiFault env (calls w ++ [CallDo req]) (CallCreate sec) = None ->
  registerOAuth2Client env client w =
  match apiFault env (calls w ++ [CallDo req; CallCreate sec])
          (CallStatusUpdate client') with
  | Some err => (Done (Some err), log (CallStatusUpdate client') w2)
  | None =>
      (Done None,
       set_objects (<[key := (sp, Status client')]> (objects w))
         (log (CallStatusUpdate client') w2))
  end.
Proof.
  intros client req sec client' w2 Htr H201 Hbody Hsecret Ho Hs Hf1.
  unfold registerOAuth2Client. run.
  rewrite postOAuth2Client_eq. fold req. rewrite Htr.
  unfold createOutcome. rewrite Hbody, H201. cbn. rewrite Hsecret.
  destruct key as [ns name].
  unfold Create, StatusUpdate.
  cbn [SecretName SecretNamespace Name Namespace Status Spec fst snd
       calls objects secrets HydraURL log set_HydraURL].
  change (mkSecret name ns {[ "client_secret" := secret ]}) with sec.
  rewrite Hf1, Hs. cbn beta iota zeta.
  cbn [SecretName SecretNamespace Name Namespace Status Spec fst snd
       calls objects secrets HydraURL log set_HydraURL set_secrets].
  rewrite <- !app_assoc. cbn [app].
  change (mkClient name ns sp (mkStatus (Some name) (json.ClientID created)))
    with client'.
  destruct (apiFault env _ (CallStatusUpdate client')); [reflexivity |].
  rewrite Ho. reflexivity.
Qed.

(** X6: a successful registration writes the identifier of the returned
    record into the status as it is.  A record without identifier leaves
    the stored identifier nil, also when one was stored before. *)
Theorem Reconcile_stores_the_record_identifier env key w sp st w1 resp created secret :
  let req := createRequest (ToOAuth2ClientJSON (resource key sp st)) (HydraURL w1) in
  let sec := credentialSecret key secret in
  let st' := {| Secret := Some key.2; ClientID := json.ClientID created |} in
  objects w !! key = Some (sp, st) ->
  apiFault env (calls w) (CallGet key) = None ->
  finds_unregistered env st (log (CallGet key) w) w1 ->
  transport env (calls w1) req = inr resp ->
  http.StatusCode resp = 201 ->
  http.RespBody resp = http.Object created ->
  json.Secret created = Some secret ->
  secrets w !! key = None ->
  apiFault env (calls w1 ++ [CallDo req]) (CallCreate sec) = None ->
  apiFault env (calls w1 ++ [CallDo req; CallCreate sec])
    (CallStatusUpdate (resource key sp st')) = None ->
  exists w',
    Reconcile env key w = (Done (Result_zero, None), w')
    /\ objects w' !! key = Some (sp, st')
    /\ secrets w' !! key = Some sec.
Proof.
  intros req sec st' Ho Hf Hun Htr H201 Hbody Hsecret Hs Hf1 Hf2.
  rewrite (Reconcile_registers env key w sp st w1 Ho Hf Hun).
  destruct (finds_unregistered_frame env st _ w1 Hun) as [Ho1 Hs1].
  cbn [objects secrets log] in Ho1, Hs1.
  rewrite (registerOAuth2Client_updates_status env key sp st st w1 resp created secret
             Htr H201 Hbody Hsecret);
    [| rewrite Ho1; exact Ho | rewrite Hs1; exact Hs | exact Hf1].
  fold req sec st'. rewrite Hf2. cbn [fst snd].
  eexists. split; [reflexivity |].
  cbn [objects secrets set_objects set_secrets log].
  split; apply lookup_insert_eq.
Qed.

Lemma Reconcile_stores_the_record_identifier_witness :
  exists w',
    Reconcile Faulty.nameless Demo.key Demo.registered = (Done (Result_zero, None), w')
    /\ objects w' !! Demo.key
       = Some (Demo.spec, {| Secret := Some "demo"; ClientID := None |})
    /\ secrets w' !! Demo.key = Some (credentialSecret Demo.key "s3cr3t").
Proof.
  apply (Reconcile_stores_the_record_identifier Faulty.nameless Demo.key Demo.registered
           Demo.spec {| Secret := Some "demo"; ClientID := Some "old-id" |}
           (snd (getOAuth2Client Faulty.nameless "old-id"
                   (log (CallGet Demo.key) Demo.registered)))
           Faulty.noID
           {| json.ClientID := None; json.Name := "demo";
              json.Secret := Some "s3cr3t";
              json.GrantTypes := ["client_credentials"];
              json.ResponseTypes := []; json.Scope := "read write" |}
           "s3cr3t");
    try reflexivity.
  exists None. reflexivity.
Defined.

(** X7: when the secret was created and the status update is refused, the
    invocation returns that error; the secret stays in the store, the
    stored status is what it was, and the refused update is the last call
    made. *)
Theorem Reconcile_status_update_refused env key w sp st w1 resp created secret err :
  let req := createRequest (ToOAuth2ClientJSON (resource key sp st)) (HydraURL w1) in
  let sec := credentialSecret key secret in
  let st' := {| Secret := Some key.2; ClientID := json.ClientID created |} in
  objects w !! key = Some (sp, st) ->
  apiFault env (calls w) (CallGet key) = None ->
  finds_unregistered env st (log (CallGet key) w) w1 ->
  transport env (calls w1) req = inr resp ->
  http.StatusCode resp = 201 ->
  http.RespBody resp = http.Object created ->
  json.Secret created = Some secret ->
  secrets w !! key = None ->
  apiFault env (calls w1 ++ [CallDo req]) (CallCreate sec) = None ->
  apiFault env (calls w1 ++ [CallDo req; CallCreate sec])
    (CallStatusUpdate (resource key sp st')) = Some err ->
  exists w',
    Reconcile env key w = (Done (Result_zero, Some err), w')
    /\ secrets w' !! key = Some sec
    /\ objects w' = objects w
    /\ calls w' = (calls w1 ++ [CallDo req; CallCreate sec;
                                CallStatusUpdate (resource key sp st')])%list.
Proof.
  intros req sec st' Ho Hf Hun Htr H201 Hbody Hsecret Hs Hf1 Hf2.
  rewrite (Reconcile_registers env key w sp st w1 Ho Hf Hun).
  destruct (finds_unregistered_frame env st _ w1 Hun) as [Ho1 Hs1].
  cbn [objects secrets log] in Ho1, Hs1.
  rewrite (registerOAuth2Client_updates_status env key sp st st w1 resp created secret
             Htr H201 Hbody Hsecret);
    [| rewrite Ho1; exact Ho | rewrite Hs1; exact Hs | exact Hf1].
  fold req sec st'. rewrite Hf2. cbn [fst snd].
  eexists. split; [reflexivity |].
  cbn [objects secrets calls set_objects set_secrets set_HydraURL log].
  repeat apply conj.
  - apply lookup_insert_eq.
  - exact Ho1.
  - rewrite <- !app_assoc. reflexivity.
Qed.

Lemma Reconcile_status_update_refused_witness :
  exists w',
    Reconcile Faulty.statusConflict Demo.key Demo.fresh
      = (Done (Result_zero, Some (APIError "the object has been modified")), w')
    /\ secrets w' !! Demo.key = Some (credentialSecret Demo.key "s3cr3t")
    /\ objects w' = objects Demo.fresh
    /\ calls w' =
         (calls (log (CallGet Demo.key) Demo.fresh)
          ++ [CallDo (createRequest Demo.desired Demo.base);
              CallCreate (credentialSecret Demo.key "s3cr3t");
              CallStatusUpdate
                (resource Demo.key Demo.spec
                   {| Secret := Some "demo"; ClientID := Some "abc123" |})])%list.
Proof.
  apply (Reconcile_status_update_refused Faulty.statusConflict Demo.key Demo.fresh
           Demo.spec (mkStatus None None) (log (CallGet Demo.key) Demo.fresh)
           Demo.createdResp Demo.created "s3cr3t"
           (APIError "the object has been modified"));
    reflexivity.
Defined.

(** ** What an invocation may call and store *)

Lemma follows_create_forall key rest :
  forallb (follows_create key) rest = true ->
  forallb (concerns key) rest = true
  /\ List.filter isCreate rest = []
  /\ List.filter isRead rest = [].
Proof.
  induction rest as [| c rest IH]; cbn [forallb List.filter]; [auto |].
  intros H. apply andb_true_iff in H as [Hc Hrest].
  destruct (IH Hrest) as (H1 & H2 & H3).
  unfold follows_create in Hc.
  apply andb_true_iff in Hc as [Hc Hr]. apply andb_true_iff in Hc as [Hk Hcr].
  apply negb_true_iff in Hr, Hcr.
  rewrite Hk, Hcr, Hr, H1. auto.
Qed.

(** X8: the calls of an invocation for [key], whichever way it ends: the
    read of [key] first, then at most four more, each of them a GET, a POST,
    the creation of a secret named as [key] or the status update of [key];
    at most one of them is a Create and at most one a Lookup. *)
Theorem Reconcile_calls env key w :
  exists added,
    calls (snd (Reconcile env key w)) = (calls w ++ CallGet key :: added)%list
    /\ forallb (concerns key) added = true
    /\ (length added <= 4)%nat
    /\ (length (List.filter isCreate added) <= 1)%nat
    /\ (length (List.filter isRead added) <= 1)%nat.
Proof.
  destruct (Reconcile_cases env key w)
    as [[err Hr] | [(sp & st & id & err & _ & _ & Hr)
                   | (sp & st & w1 & looked & _ & _ & _ & Hc1 & Hlooked & Hr)]];
    rewrite Hr; cbn [snd].
  - exists []. cbn. repeat split; lia.
  - exists [CallDo (lookupRequest id (HydraURL w))].
    cbn [calls log set_HydraURL]. rewrite <- app_assoc.
    cbn. repeat split; lia.
  - destruct (registerOAuth2Client_shape env (resource key sp st) w1)
      as ((rest & Hc & Hrest & Hlen) & _ & _).
    destruct key as [ns name]. cbn [resource Namespace Name fst snd] in Hrest.
    destruct (follows_create_forall _ _ Hrest) as (Hcon & Hcr & Hrd).
    rewrite Hc, Hc1.
    exists (looked ++ CallDo (createRequest (ToOAuth2ClientJSON (resource (ns, name) sp st))
                                 (HydraURL w1)) :: rest)%list.
    split; [rewrite <- app_assoc; reflexivity |].
    destruct Hlooked as [(-> & _ & _) | (id & ->)].
    + cbn [app forallb List.filter concerns isCreate isRead length
                http.Method createRequest].
      cbn. rewrite Hcon, Hcr, Hrd. cbn. repeat split; lia.
    + cbn [app forallb List.filter concerns isCreate isRead length
                http.Method createRequest lookupRequest].
      cbn. rewrite Hcon, Hcr, Hrd. cbn. repeat split; lia.
Qed.

(** X9: an invocation for [key] stores nothing under another name: every
    other resource and every other secret is what it was. *)
Theorem Reconcile_leaves_other_resources env key w k :
  k <> key ->
  objects (snd (Reconcile env key w)) !! k = objects w !! k
  /\ secrets (snd (Reconcile env key w)) !! k = secrets w !! k.
Proof.
  intros Hk.
  destruct (Reconcile_cases env key w)
    as [[err Hr] | [(sp & st & id & err & _ & _ & Hr)
                   | (sp & st & w1 & looked & _ & _ & Hun & _ & _ & Hr)]];
    rewrite Hr; cbn [snd]; [split; reflexivity | split; reflexivity |].
  destruct (registerOAuth2Client_shape env (resource key sp st) w1) as (_ & Hframe & _).
  destruct (finds_unregistered_frame env st _ w1 Hun) as [Ho1 Hs1].
  cbn [objects secrets log] in Ho1, Hs1.
  destruct key as [ns name].
  destruct (Hframe k Hk) as [Ho Hs].
  rewrite Ho, Hs, Ho1, Hs1. split; reflexivity.
Qed.

Lemma Reconcile_leaves_other_resources_witness :
  objects (snd (Reconcile Demo.lost Demo.key Demo.fresh)) !! ("default", "other")
    = objects Demo.fresh !! ("default", "other")
  /\ secrets (snd (Reconcile Demo.lost Demo.key Demo.fresh)) !! ("default", "other")
     = secrets Demo.fresh !! ("default", "other").
Proof.
  apply (Reconcile_leaves_other_resources Demo.lost Demo.key Demo.fresh
           ("default", "other")).
  discriminate.
Defined.

(** ** A resource without identifier *)

(** X10: for a resource whose status has no identifier the registry is not
    asked first: right after the read the Create is sent, to the base
    endpoint as it stood, and no other registry request follows. *)
Theorem Reconcile_without_identifier_creates_at_once env key w sp st :
  objects w !! key = Some (sp, st) ->
  ClientID st = None ->
  apiFault env (calls w) (CallGet key) = None ->
  exists rest,
    calls (snd (Reconcile env key w)) =
      (calls w ++ CallGet key
         :: CallDo (createRequest (ToOAuth2ClientJSON (resource key sp st)) (HydraURL w))
         :: rest)%list
    /\ forallb (follows_create key) rest = true
    /\ (length rest <= 2)%nat.
Proof.
  intros Ho Hid Hf.
  assert (Hun : finds_unregistered env st (log (CallGet key) w) (log (CallGet key) w))
    by (unfold finds_unregistered; rewrite Hid; reflexivity).
  rewrite (Reconcile_registers env key w sp st _ Ho Hf Hun). cbn [snd].
  destruct (registerOAuth2Client_shape env (resource key sp st) (log (CallGet key) w))
    as ((rest & Hc & Hrest & Hlen) & _ & _).
  destruct key as [ns name]. cbn [resource Namespace Name fst snd] in Hrest.
  exists rest. rewrite Hc. cbn [calls log HydraURL]. rewrite <- app_assoc.
  repeat split; assumption.
Qed.

Lemma Reconcile_without_identifier_creates_at_once_witness :
  exists rest,
    calls (snd (Reconcile Demo.conflicting Demo.key Demo.fresh)) =
      (calls Demo.fresh ++ CallGet Demo.key
         :: CallDo (createRequest Demo.desired Demo.base) :: rest)%list
    /\ forallb (follows_create Demo.key) rest = true
    /\ (length rest <= 2)%nat.
Proof.
  apply (Reconcile_without_identifier_creates_at_once Demo.conflicting Demo.key
           Demo.fresh Demo.spec (mkStatus None None));
    reflexivity.
Defined.

(** One invocation that gets a record from the registry and has its secret
    refused. *)
Lemma Reconcile_secret_refused_step env key w sp st :
  objects w !! key = Some (sp, st) ->
  ClientID st = None ->
  (forall h, apiFault env h (CallGet key) = None) ->
  (forall h req, http.Method req = http.MethodPost ->
     exists resp created secret,
       transport env h req = inr resp
       /\ http.StatusCode resp = 201
       /\ http.RespBody resp = http.Object created
       /\ json.Secret created = Some secret) ->
  (forall h s, exists err, apiFault env h (CallCreate s) = Some err) ->
  exists err w' added,
    Reconcile env key w = (Done (Result_zero, Some err), w')
    /\ objects w' = objects w
    /\ secrets w' = secrets w
    /\ calls w' = (calls w ++ added)%list
    /\ length (List.filter isCreate added) = 1%nat.
Proof.
  intros Ho Hid Hget Hpost Hrefuse.
  assert (Hun : finds_unregistered env st (log (CallGet key) w) (log (CallGet key) w))
    by (unfold finds_unregistered; rewrite Hid; reflexivity).
  set (w0 := log (CallGet key) w) in *.
  set (req := createRequest (ToOAuth2ClientJSON (resource key sp st)) (HydraURL w0)).
  destruct (Hpost (calls w0) req eq_refl)
    as (resp & created & secret & Htr & H201 & Hbody & Hsecret).
  assert (Hp : postOAuth2Client env (ToOAuth2ClientJSON (resource key sp st)) w0
               = (Done (Some created, None),
                  log (CallDo req) (set_HydraURL (joined "" (HydraURL w0)) w0))).
  { rewrite postOAuth2Client_eq. fold req. rewrite Htr.
    unfold createOutcome. rewrite Hbody, H201. reflexivity. }
  destruct (Hrefuse (calls w0 ++ [CallDo req])%list (credentialSecret key secret))
    as [err Herr].
  destruct (registerOAuth2Client_secret_refused env (resource key sp st) w0 _
              created secret err Hp Hsecret) as (w' & Hr & Ho' & Hs' & Hc').
  { unfold Create. cbn [calls log set_HydraURL resource SecretName SecretNamespace
                        Name Namespace].
    fold (credentialSecret key secret). rewrite Herr. reflexivity. }
  exists err, w', [CallGet key; CallDo req; CallCreate (credentialSecret key secret)].
  rewrite (Reconcile_registers env key w sp st w0 Ho (Hget _) Hun), Hr. cbn [fst snd].
  repeat apply conj; try assumption; try reflexivity.
  rewrite Hc'. cbn [calls log set_HydraURL]. subst w0. cbn [calls log].
  rewrite <- !app_assoc. reflexivity.
Qed.

(** X11: nothing makes a Create idempotent.  For a resource without
    identifier, when the registry answers every Create with a record and
    the API server refuses every secret, each of [n] invocations in a row
    fails and sends a Create of its own: [n] Creates in all, with the store
    as it was. *)
Theorem Reconcile_retry_creates_again env key w sp st :
  objects w !! key = Some (sp, st) ->
  ClientID st = None ->
  (forall h, apiFault env h (CallGet key) = None) ->
  (forall h req, http.Method req = http.MethodPost ->
     exists resp created secret,
       transport env h req = inr resp
       /\ http.StatusCode resp = 201
       /\ http.RespBody resp = http.Object created
       /\ json.Secret created = Some secret) ->
  (forall h s, exists err, apiFault env h (CallCreate s) = Some err) ->
  forall n, exists rs w' added,
    ReconcileN env n key w = (Done rs, w')
    /\ length rs = n
    /\ Forall (fun r => snd r <> None) rs
    /\ objects w' = objects w
    /\ secrets w' = secrets w
    /\ calls w' = (calls w ++ added)%list
    /\ length (List.filter isCreate added) = n.
Proof.
  intros Ho Hid Hget Hpost Hrefuse n. revert w Ho.
  induction n as [| n IH]; intros w Ho.
  - exists [], w, []. cbn. rewrite app_nil_r. repeat split. constructor.
  - destruct (Reconcile_secret_refused_step env key w sp st Ho Hid Hget Hpost Hrefuse)
      as (err & w1 & add1 & Hr & Ho1 & Hs1 & Hc1 & Hn1).
    assert (Ho1' : objects w1 !! key = Some (sp, st)) by (rewrite Ho1; exact Ho).
    destruct (IH w1 Ho1') as (rs & w' & add2 & Hrs & Hlen & HF & Ho' & Hs' & Hc2 & Hn2).
    exists ((Result_zero, Some err) :: rs), w', (add1 ++ add2)%list.
    cbn [ReconcileN]. unfold mbind, M_bind at 1. rewrite Hr.
    unfold mbind, M_bind at 1. rewrite Hrs.
    repeat apply conj.
    + reflexivity.
    + cbn. rewrite Hlen. reflexivity.
    + constructor; [discriminate | exact HF].
    + rewrite Ho', Ho1. reflexivity.
    + rewrite Hs', Hs1. reflexivity.
    + rewrite Hc2, Hc1, app_assoc. reflexivity.
    + rewrite List.filter_app, length_app, Hn1, Hn2. reflexivity.
Qed.

Lemma Reconcile_retry_creates_again_witness :
  exists rs w' added,
    ReconcileN Demo.forbidden 3 Demo.key Demo.fresh = (Done rs, w')
    /\ length rs = 3%nat
    /\ Forall (fun r => snd r <> None) rs
    /\ objects w' = objects Demo.fresh
    /\ secrets w' = secrets Demo.fresh
    /\ calls w' = (calls Demo.fresh ++ added)%list
    /\ length (List.filter isCreate added) = 3%nat.
Proof.
  apply (Reconcile_retry_creates_again Demo.forbidden Demo.key Demo.fresh
           Demo.spec (mkStatus None None)).
  - reflexivity.
  - reflexivity.
  - intros h. reflexivity.
  - intros h req Hm. exists Demo.createdResp, Demo.created, "s3cr3t".
    cbn. rewrite Hm. repeat split.
  - intros h s. eexists. reflexivity.
Defined.

(** ** The base endpoint over several invocations *)

Lemma getOAuth2Client_HydraURL env id w :
  HydraURL (snd (getOAuth2Client env id w)) = joined id (HydraURL w).
Proof. rewrite getOAuth2Client_eq. reflexivity. Qed.

Lemma url_String_joined rel u :
  cleanBase (url.Path u) -> plain rel = true ->
  url.String (joined rel u)
  = url.String u +:+ "/" +:+ url.escape rel url.encodePath.
Proof.
  intros Hbase Hrel. unfold joined.
  rewrite (Join_base_element _ _ Hbase Hrel).
  destruct Hbase as (_ & Hroot & _).
  rewrite (url_String_element _ _ _ Hroot), url_set_Path_same. reflexivity.
Qed.

Lemma drifted_cleanBase n rel p :
  cleanBase p -> plain rel = true -> cleanBase (drifted n rel p).
Proof.
  revert p. induction n as [| n IH]; intros p Hp Hrel; [exact Hp |].
  cbn [drifted]. apply IH; [apply cleanBase_element |]; assumption.
Qed.

(** X12: each invocation for a registered resource whose identifier is found
    leaves the base path one element longer.  From a clean base path [p] and
    a plain identifier, after [n] invocations the base path is [p] followed
    by [n] copies of the identifier, so the next Lookup is sent [n]
    elements too deep: to the rendering of that base followed by a slash
    and the escaped identifier. *)
Theorem Reconcile_base_path_grows env key w sp st id :
  objects w !! key = Some (sp, st) ->
  ClientID st = Some id ->
  cleanBase (url.Path (HydraURL w)) ->
  plain id = true ->
  (forall h, apiFault env h (CallGet key) = None) ->
  (forall w', exists r, fst (getOAuth2Client env id w') = Done (r, true, None)) ->
  forall n,
    url.Path (HydraURL (snd (ReconcileN env n key w)))
      = drifted n id (url.Path (HydraURL w))
    /\ http.URL (lookupRequest id (HydraURL (snd (ReconcileN env n key w))))
       = url.String (url.set_Path (HydraURL w) (drifted n id (url.Path (HydraURL w))))
         +:+ "/" +:+ url.escape id url.encodePath.
Proof.
  intros Ho Hid Hbase Hplain Hget Hfound n.
  assert (Hpath : forall m w0,
            objects w0 !! key = Some (sp, st) ->
            cleanBase (url.Path (HydraURL w0)) ->
            HydraURL (snd (ReconcileN env m key w0))
            = url.set_Path (HydraURL w0) (drifted m id (url.Path (HydraURL w0)))).
  { induction m as [| m IH]; intros w0 Ho0 Hb0.
    - cbn. symmetry. apply url_set_Path_same.
    - pose proof (getOAuth2Client_HydraURL env id (log (CallGet key) w0)) as Hurl.
      destruct (getOAuth2Client_frame env id (log (CallGet key) w0)) as (Ho1 & _ & _).
      destruct (Hfound (log (CallGet key) w0)) as [r Hr].
      destruct (getOAuth2Client env id (log (CallGet key) w0)) as [o w1] eqn:Hrun.
      cbn [fst snd] in Hr, Hurl, Ho1. subst o. cbn [HydraURL log objects] in Hurl, Ho1.
      pose proof (Reconcile_lookup_ends env key w0 sp st id r true None w1
                    Ho0 (Hget _) Hid Hrun (or_introl eq_refl)) as Hrec.
      assert (Hp1 : url.Path (HydraURL w1) = url.Path (HydraURL w0) +:+ "/" +:+ id).
      { rewrite Hurl. unfold joined, url.set_Path.
        cbn [url.Path]. apply Join_base_element; assumption. }
      assert (IH1 : HydraURL (snd (ReconcileN env m key w1))
                    = url.set_Path (HydraURL w1) (drifted m id (url.Path (HydraURL w1)))).
      { apply IH; [rewrite Ho1; exact Ho0 |].
        rewrite Hp1. apply cleanBase_element; assumption. }
      cbn [ReconcileN]. unfold mbind, M_bind, mret, M_ret. rewrite Hrec.
      destruct (ReconcileN env m key w1) as [[rs | msg] w2];
        cbn [snd] in *; rewrite IH1, Hp1; cbn [drifted]; rewrite Hurl; reflexivity.
  }
  rewrite (Hpath n w Ho Hbase). split.
  - reflexivity.
  - pose proof (drifted_cleanBase n id _ Hbase Hplain) as Hd.
    apply (url_String_joined id (url.set_Path (HydraURL w)
                                   (drifted n id (url.Path (HydraURL w)))));
      assumption.
Qed.

Lemma Reconcile_base_path_grows_witness :
  url.Path (HydraURL (snd (ReconcileN Demo.found 2 Demo.key Demo.registered)))
    = "/clients/old-id/old-id"
  /\ http.URL (lookupRequest "old-id"
                 (HydraURL (snd (ReconcileN Demo.found 2 Demo.key Demo.registered))))
     = "http://hydra/clients/old-id/old-id" +:+ "/" +:+ "old-id".
Proof.
  apply (Reconcile_base_path_grows Demo.found Demo.key Demo.registered Demo.spec
           {| Secret := Some "demo"; ClientID := Some "old-id" |} "old-id").
  - reflexivity.
  - reflexivity.
  - repeat split. discriminate.
  - reflexivity.
  - intros h. reflexivity.
  - intros w'. eexists. reflexivity.
Defined.

(** X13: a re-registration is sent to the wrong place.  When the status
    carries a plain identifier, the base path is clean and the Lookup says
    not found, the Create of the same invocation goes to the base URL
    followed by the escaped identifier, where the Lookup went, not to the
    base URL. *)
Theorem Reconcile_reregisters_below_the_identifier env key w sp st id r w1 :
  objects w !! key = Some (sp, st) ->
  ClientID st = Some id ->
  cleanBase (url.Path (HydraURL w)) ->
  plain id = true ->
  apiFault env (calls w) (CallGet key) = None ->
  getOAuth2Client env id (log (CallGet key) w) = (Done (r, false, None), w1) ->
  exists req rest,
    calls (snd (Reconcile env key w)) =
      (calls w ++ CallGet key :: CallDo (lookupRequest id (HydraURL w))
               :: CallDo req :: rest)%list
    /\ http.Method req = http.MethodPost
    /\ http.URL req
       = url.String (HydraURL w) +:+ "/" +:+ url.escape id url.encodePath
    /\ http.URL (lookupRequest id (HydraURL w))
       = url.String (HydraURL w) +:+ "/" +:+ url.escape id url.encodePath.
Proof.
  intros Ho Hid Hbase Hplain Hf Hget.
  assert (Hun : finds_unregistered env st (log (CallGet key) w) w1)
    by (unfold finds_unregistered; rewrite Hid; eauto).
  pose proof (getOAuth2Client_HydraURL env id (log (CallGet key) w)) as Hurl.
  destruct (getOAuth2Client_frame env id (log (CallGet key) w)) as (_ & _ & Hc1).
  rewrite Hget in Hurl, Hc1. cbn [snd HydraURL log calls] in Hurl, Hc1.
  rewrite (Reconcile_registers env key w sp st w1 Ho Hf Hun). cbn [snd].
  destruct (registerOAuth2Client_shape env (resource key sp st) w1)
    as ((rest & Hc & _ & _) & _ & _).
  exists (createRequest (ToOAuth2ClientJSON (resource key sp st)) (HydraURL w1)), rest.
  repeat apply conj.
  - rewrite Hc, Hc1, <- !app_assoc. reflexivity.
  - reflexivity.
  - cbn [http.URL createRequest]. rewrite Hurl.
    assert (Hb1 : cleanBase (url.Path (joined id (HydraURL w)))).
    { unfold joined, url.set_Path. cbn [url.Path].
      rewrite (Join_base_element _ _ Hbase Hplain).
      apply cleanBase_element; assumption. }
    unfold joined at 1. rewrite (Join_base_empty _ Hb1), url_set_Path_same.
    apply url_String_joined; assumption.
  - apply url_String_joined; assumption.
Qed.

Lemma Reconcile_reregisters_below_the_identifier_witness :
  exists req rest,
    calls (snd (Reconcile Demo.lost Demo.key Demo.registered)) =
      (calls Demo.registered
       ++ CallGet Demo.key :: CallDo (lookupRequest "old-id" Demo.base)
       :: CallDo req :: rest)%list
    /\ http.Method req = http.MethodPost
    /\ http.URL req = "http://hydra/clients" +:+ "/" +:+ "old-id"
    /\ http.URL (lookupRequest "old-id" Demo.base)
       = "http://hydra/clients" +:+ "/" +:+ "old-id".
Proof.
  apply (Reconcile_reregisters_below_the_identifier Demo.lost Demo.key Demo.registered
           Demo.spec {| Secret := Some "demo"; ClientID := Some "old-id" |} "old-id"
           None
           (snd (getOAuth2Client Demo.lost "old-id"
                   (log (CallGet Demo.key) Demo.registered)))).
  - reflexivity.
  - reflexivity.
  - repeat split. discriminate.
  - reflexivity.
  - reflexivity.
  - reflexivity.
Defined.

(** ** What the returned error says about the store *)

(** How a registration ends: with no error, the secret and the status are
    stored; otherwise no stored resource has changed. *)
Lemma registerOAuth2Client_ends env client w :
  let key : NamespacedName := (Namespace client, Name client) in
  let res := registerOAuth2Client env client w in
  (fst res = Done None
   /\ exists secret sp0 st0 cid,
        objects w !! key = Some (sp0, st0)
        /\ secrets (snd res) =
           <[key := {| SecretName := Name client; SecretNamespace := Namespace client;
                       Data := {[ "client_secret" := secret ]} |}]> (secrets w)
        /\ objects (snd res) =
           <[key := (sp0, {| Secret := Some (Name client); ClientID := cid |})]>
             (objects w))
  \/ (fst res <> Done None /\ objects (snd res) = objects w).
Proof.
  intros key res. subst res.
  unfold registerOAuth2Client. run. rewrite postOAuth2Client_eq.
  destruct (createOutcome _ _) as [created [err |]]; cbn.
  { right. split; [discriminate | reflexivity]. }
  destruct created as [created |]; cbn;
    [| right; split; [discriminate | reflexivity]].
  destruct (json.Secret created) as [secret |]; cbn;
    [| right; split; [discriminate | reflexivity]].
  unfold Create. cbn.
  destruct (apiFault env _ (CallCreate _)); cbn.
  { right. split; [discriminate | reflexivity]. }
  destruct (secrets w !! _); cbn.
  { right. split; [discriminate | reflexivity]. }
  unfold StatusUpdate. cbn.
  destruct (apiFault env _ (CallStatusUpdate _)); cbn.
  { right. split; [discriminate | reflexivity]. }
  destruct (objects w !! _) as [[sp0 st0] |] eqn:Ho; cbn.
  - left. split; [reflexivity |].
    exists secret, sp0, st0, (json.ClientID created). repeat split.
  - right. split; [discriminate | reflexivity].
Qed.

(** X14: an invocation that returns no error never asks for a requeue, and
    it either stored nothing, or it stored the secret named after the
    resource together with a status that names that secret. *)
Theorem Reconcile_success_means env key w res :
  fst (Reconcile env key w) = Done (res, None) ->
  res = Result_zero
  /\ ((objects (snd (Reconcile env key w)) = objects w
       /\ secrets (snd (Reconcile env key w)) = secrets w)
      \/ exists secret sp cid,
           secrets (snd (Reconcile env key w)) !! key
             = Some (credentialSecret key secret)
           /\ objects (snd (Reconcile env key w)) !! key
              = Some (sp, {| Secret := Some key.2; ClientID := cid |})).
Proof.
  destruct (Reconcile_cases env key w)
    as [[err Hr] | [(sp & st & id & err & _ & _ & Hr)
                   | (sp & st & w1 & looked & _ & _ & Hun & _ & _ & Hr)]];
    rewrite Hr; cbn [fst snd].
  - intros [= <- _]. split; [reflexivity |]. left. split; reflexivity.
  - intros [= <- _]. split; [reflexivity |]. left. split; reflexivity.
  - destruct (registerOAuth2Client_ends env (resource key sp st) w1)
      as [(Hnil & secret & sp0 & st0 & cid & _ & Hs & Ho) | (Hne & _)].
    + rewrite Hnil. intros [= <-]. split; [reflexivity |]. right.
      exists secret, sp0, cid. rewrite Hs, Ho.
      destruct key as [ns name]. split; apply lookup_insert_eq.
    + destruct (fst (registerOAuth2Client env (resource key sp st) w1)) as [e | m];
        [| discriminate].
      intros [= <- ->]. exfalso. apply Hne. reflexivity.
Qed.

Lemma Reconcile_success_means_witness :
  Result_zero = Result_zero
  /\ ((objects (snd (Reconcile Demo.lost Demo.key Demo.fresh)) = objects Demo.fresh
       /\ secrets (snd (Reconcile Demo.lost Demo.key Demo.fresh)) = secrets Demo.fresh)
      \/ exists secret sp cid,
           secrets (snd (Reconcile Demo.lost Demo.key Demo.fresh)) !! Demo.key
             = Some (credentialSecret Demo.key secret)
           /\ objects (snd (Reconcile Demo.lost Demo.key Demo.fresh)) !! Demo.key
              = Some (sp, {| Secret := Some "demo"; ClientID := cid |})).
Proof.
  apply (Reconcile_success_means Demo.lost Demo.key Demo.fresh Result_zero).
  reflexivity.
Defined.

(** X15: an invocation that does not return a nil error, be it an error or a
    panic, leaves every stored resource, status included, as it was. *)
Theorem Reconcile_failure_keeps_status env key w :
  (forall res, fst (Reconcile env key w) <> Done (res, None)) ->
  objects (snd (Reconcile env key w)) = objects w.
Proof.
  destruct (Reconcile_cases env key w)
    as [[err Hr] | [(sp & st & id & err & _ & _ & Hr)
                   | (sp & st & w1 & looked & _ & _ & Hun & _ & _ & Hr)]];
    rewrite Hr; cbn [fst snd]; intros Hfail; try reflexivity.
  destruct (finds_unregistered_frame env st _ w1 Hun) as [Ho1 _].
  cbn [objects log] in Ho1.
  destruct (registerOAuth2Client_ends env (resource key sp st) w1)
    as [(Hnil & _) | (_ & Ho)].
  - exfalso. apply (Hfail Result_zero). rewrite Hnil. reflexivity.
  - rewrite Ho. exact Ho1.
Qed.

Lemma Reconcile_failure_keeps_status_witness :
  objects (snd (Reconcile Faulty.statusConflict Demo.key Demo.fresh))
    = objects Demo.fresh.
Proof.
  apply (Reconcile_failure_keeps_status Faulty.statusConflict Demo.key Demo.fresh).
  intros res. discriminate.
Defined.
